(** * Verification of the gojo-com-documentation PDF scraper (main.go)

    A shallow embedding of the Go program: the link extractor
    ([extractPDFLinks] with its regular expression), the filename deriver
    ([urlToFilename]), the static page fetcher ([getDataFromURL]), the
    downloader ([downloadPDF]) and the orchestrator's download loop.

    Go strings are byte strings; they are modelled as Rocq [string]
    (a list of 8-bit [ascii]).  Functions of the Go standard library whose
    full behaviour is out of reach ([url.Parse], [strings.ToLower],
    [filepath.Join], [url.ParseRequestURI]) are Section variables, so every
    result holds for whatever they compute. *)

From Stdlib Require Import String Ascii List ZArith Bool Lia.
From stdpp Require Import base gmap strings list.
Import ListNotations.
Open Scope string_scope.

(* ------------------------------------------------------------------ *)
(** ** Byte-string helpers (package strings) *)

(** strings.ReplaceAll(s, old, new) for a one-byte [old]. *)
Fixpoint ReplaceAll (s : string) (old : ascii) (new : string) : string :=
  match s with
  | EmptyString => EmptyString
  | String c s' =>
      if Ascii.eqb c old then new ++ ReplaceAll s' old new
      else String c (ReplaceAll s' old new)
  end.

(** strings.Contains(s, substr). *)
Fixpoint Contains (s substr : string) : bool :=
  String.prefix substr s ||
  match s with
  | EmptyString => false
  | String _ s' => Contains s' substr
  end.

(** strings.Split(s, "\n"): the pieces between newlines; "" gives [""]. *)
Fixpoint split_nl_aux (s : string) (cur : string) : list string :=
  match s with
  | EmptyString => [cur]
  | String c s' =>
      if Ascii.eqb c "010"%char then cur :: split_nl_aux s' EmptyString
      else split_nl_aux s' (cur ++ String c EmptyString)
  end.

Definition Split_lines (s : string) : list string := split_nl_aux s EmptyString.

(* ------------------------------------------------------------------ *)
(** ** The link pattern

    [pdfRegex]: the scheme [https?://], then the lazy class [[^\s Q '<>]+?]
    (Q standing for the double quote), then [\.pdf], then an optional group
    made of [\?] and a greedy run of the same class; matched with Go's
    leftmost-first semantics.  [\s] is RE2's [[\t\n\f\r ]].  The negated
    class matches every other rune; since all its excluded characters are
    ASCII, matching it byte by byte gives the same spans as matching it
    rune by rune. *)

Definition in_class (c : ascii) : bool :=
  negb (existsb (Ascii.eqb c)
          [" "%char; "009"%char; "010"%char; "012"%char; "013"%char;
           "034"%char; "'"%char; "<"%char; ">"%char]).

(** Greedy run of the class: length of the longest prefix in the class. *)
Fixpoint class_run (s : string) : nat :=
  match s with
  | EmptyString => 0
  | String c s' => if in_class c then S (class_run s') else 0
  end.

(** Optional greedy query group: taken whenever a [?]
    follows. *)
Definition query_len (s : string) : nat :=
  match s with
  | String c s' => if Ascii.eqb c "?"%char then S (class_run s') else 0
  | EmptyString => 0
  end.

(** Lazy [[^\s Q '<>]+?\.pdf] followed by the optional query group: after
    each class character, try [.pdf] first and only then consume one more
    character.  Returns the number of bytes consumed. *)
Fixpoint lazy_body (s : string) : option nat :=
  match s with
  | EmptyString => None
  | String c s' =>
      if in_class c then
        if String.prefix ".pdf" s'
        then Some (1 + 4 + query_len (substring 4 (String.length s') s'))
        else option_map S (lazy_body s')
      else None
  end.

(** An anchored match at the start of [s]: [https?] prefers the [s];
    when [https://] is present the branch without [s] cannot match. *)
Definition match_at (s : string) : option nat :=
  if String.prefix "https://" s then option_map (Nat.add 8) (lazy_body (substring 8 (String.length s) s))
  else if String.prefix "http://" s then option_map (Nat.add 7) (lazy_body (substring 7 (String.length s) s))
  else None.

(** regexp.FindAllString(line, -1): leftmost matches, non-overlapping,
    each search resuming at the end of the previous match.  [skip] counts
    the bytes still inside the previous match. *)
Fixpoint find_all_aux (s : string) (skip : nat) : list string :=
  match s with
  | EmptyString => []
  | String c s' =>
      match skip with
      | S k => find_all_aux s' k
      | O =>
          match match_at s with
          | Some n => substring 0 n s :: find_all_aux s' (n - 1)
          | None => find_all_aux s' 0
          end
      end
  end.

Definition FindAllString (line : string) : list string := find_all_aux line 0.

(** The inner loop of extractPDFLinks over the matches of one line. *)
Fixpoint add_matches (ms : list string) (seen : gset string) (links : list string)
  : gset string * list string :=
  match ms with
  | [] => (seen, links)
  | m :: ms' =>
      if decide (m ∈ seen) then add_matches ms' seen links
      else add_matches ms' ({[m]} ∪ seen) (links ++ [m])
  end.

(** The outer loop over the lines. *)
Fixpoint scan_lines (lines : list string) (seen : gset string) (links : list string)
  : gset string * list string :=
  match lines with
  | [] => (seen, links)
  | l :: ls =>
      let '(seen', links') := add_matches (FindAllString l) seen links in
      scan_lines ls seen' links'
  end.

(** extractPDFLinks(htmlContent). *)
Definition extractPDFLinks (htmlContent : string) : list string :=
  snd (scan_lines (Split_lines htmlContent) ∅ []).

(* ------------------------------------------------------------------ *)
(** ** The filename deriver (urlToFilename) *)

(** The fields of a net/url URL that the program reads. *)
Record URL := { Host : string; Path : string; RawQuery : string }.

Section Scraper.
Set Default Proof Using "Type".

(** url.Parse: a parsed URL or the error's message. *)
Variable url_Parse : string -> URL + string.
(** strings.ToLower (Unicode lower-casing of the runes). *)
Variable ToLower : string -> string.
(** filepath.Join. *)
Variable Join : string -> string -> string.
(** The checks of url.ParseRequestURI after its first one (see
    [isUrlValid]). *)
Variable ParseRequestURI_rest : string -> bool.

(** filepath.Ext on Unix: scanning from the end, the suffix starting at
    the last [.] that comes after the last [/]; [None] while neither has
    been met. *)
Fixpoint ext_scan (s : string) : option string :=
  match s with
  | EmptyString => None
  | String c s' =>
      match ext_scan s' with
      | Some e => Some e
      | None =>
          if Ascii.eqb c "."%char then Some s
          else if Ascii.eqb c "/"%char then Some EmptyString
          else None
      end
  end.

Definition getFileExtension (path : string) : string :=
  match ext_scan path with Some e => e | None => EmptyString end.

(** invalidChars, in the order of the source. *)
Definition invalidChars : list ascii :=
  ["034"%char; "092"%char; "/"%char; ":"%char; "*"%char; "?"%char;
   "<"%char; ">"%char; "|"%char; "-"%char].

(** urlToFilename(rawURL), threading the log: the result and the log
    after the call. *)
Definition urlToFilename (rawURL : string) (lg : list string) : string * list string :=
  match url_Parse rawURL with
  | inr err => (EmptyString, app lg [err])
  | inl parsed =>
      let filename := Host parsed in
      let filename :=
        if negb (String.eqb (Path parsed) EmptyString)
        then filename ++ "_" ++ ReplaceAll (Path parsed) "/"%char "_"
        else filename in
      let filename :=
        if negb (String.eqb (RawQuery parsed) EmptyString)
        then filename ++ "_" ++ ReplaceAll (RawQuery parsed) "&"%char "_"
        else filename in
      let filename := fold_left (fun f ch => ReplaceAll f ch "_") invalidChars filename in
      let filename :=
        if negb (String.eqb (getFileExtension filename) ".pdf")
        then filename ++ ".pdf" else filename in
      (ToLower filename, lg)
  end.

(** The sanitizing policy as the spec words it, to be compared with
    [urlToFilename]: one character map for the blocklist and a suffix
    test for the extension. *)
Fixpoint map_chars (f : ascii -> ascii) (s : string) : string :=
  match s with
  | EmptyString => EmptyString
  | String c s' => String (f c) (map_chars f s')
  end.

Fixpoint HasSuffix (s suffix : string) : bool :=
  String.eqb s suffix ||
  match s with
  | EmptyString => false
  | String _ s' => HasSuffix s' suffix
  end.

Definition blocked (c : ascii) : bool := existsb (Ascii.eqb c) invalidChars.

(** Whether a string holds a character of the blocklist. *)
Definition has_blocked (s : string) : bool := existsb blocked (list_ascii_of_string s).

(** The replacement loop of urlToFilename as one character map. *)
Definition replace_loop_char (chs : list ascii) (f0 : ascii -> ascii) : ascii -> ascii :=
  fold_left (fun g ch => fun c => if Ascii.eqb (g c) ch then "_"%char else g c) chs f0.

Definition spec_filename (u : URL) : string :=
  let base :=
    Host u
    ++ (if String.eqb (Path u) EmptyString then EmptyString
        else "_" ++ ReplaceAll (Path u) "/"%char "_")
    ++ (if String.eqb (RawQuery u) EmptyString then EmptyString
        else "_" ++ ReplaceAll (RawQuery u) "&"%char "_") in
  let safe := map_chars (fun c => if blocked c then "_"%char else c) base in
  ToLower (if HasSuffix safe ".pdf" then safe else safe ++ ".pdf").

(* ------------------------------------------------------------------ *)
(** ** HTTP responses and the static page fetcher (getDataFromURL) *)

(** A response as the program sees it.  [Body] is what io.ReadAll / io.Copy
    deliver: all of it when [ReadErr] is [None], otherwise the bytes read
    before the error. *)
Record Response := {
  StatusCode : Z;
  Status : string;
  ContentType : string;  (** resp.Header.Get("Content-Type"), "" when absent *)
  Body : list Byte.byte;
  ReadErr : option string;
  CloseErr : option string
}.

(** How a Go call ends: with a value, or with a run-time panic. *)
Inductive Outcome (A : Type) :=
| Returned (a : A)
| Panicked (msg : string).
#[global] Arguments Returned {A} a.
#[global] Arguments Panicked {A} msg.

(** A 404 response carrying a one-byte page. *)
Definition resp404 : Response := {|
  StatusCode := 404; Status := "404 Not Found"; ContentType := "text/html";
  Body := [Byte.x4e]; ReadErr := None; CloseErr := None |}.

Definition opt_log (e : option string) : list string :=
  match e with Some m => [m] | None => [] end.

(** getDataFromURL(uri).  On a transport error http.Get returns a nil
    response; the code logs the error and goes on to read [response.Body],
    a nil pointer dereference. *)
Definition getDataFromURL (http_Get : string -> Response + string) (uri : string)
  (lg : list string) : Outcome (list Byte.byte) * list string :=
  let lg := app lg ["Scraping " ++ uri] in
  match http_Get uri with
  | inr err =>
      (Panicked "runtime error: invalid memory address or nil pointer dereference",
       app lg [err])
  | inl response =>
      let lg := app lg (opt_log (ReadErr response)) in
      let lg := app lg (opt_log (CloseErr response)) in
      (Returned (Body response), lg)
  end.

(* ------------------------------------------------------------------ *)
(** ** The downloader (downloadPDF) *)

(** The outside world as fixed oracles: the HTTP client, and the errors
    os.Create and the write return for a path. *)
Record Env := {
  http_get : string -> Response + string;
  create_err : string -> option string;
  write_err : string -> option string
}.

(** The state the program changes: regular files and their contents, the
    log, and the GET requests sent. *)
Record World := {
  files : gmap string (list Byte.byte);
  logs : list string;
  requests : list string
}.

Definition log_line (w : World) (msg : string) : World :=
  {| files := files w; logs := app (logs w) [msg]; requests := requests w |}.

Definition set_logs (w : World) (lg : list string) : World :=
  {| files := files w; logs := lg; requests := requests w |}.

Definition send_request (w : World) (u : string) : World :=
  {| files := files w; logs := logs w; requests := app (requests w) [u] |}.

Definition put_file (w : World) (p : string) (data : list Byte.byte) : World :=
  {| files := <[p := data]> (files w); logs := logs w; requests := requests w |}.

(** fileExists: a regular file is at the path (directories are not in
    [files]). *)
Definition fileExists (w : World) (p : string) : bool :=
  match files w !! p with Some _ => true | None => false end.

(** downloadPDF(finalURL, outputDir).  Log lines omit the byte count of
    the success message. *)
Definition downloadPDF (env : Env) (finalURL outputDir : string) (w : World) : bool * World :=
  let '(filename, lg) := urlToFilename finalURL (logs w) in
  let filePath := Join outputDir filename in
  let w := set_logs w lg in
  if fileExists w filePath then
    (false, log_line w ("File already exists, skipping: " ++ filePath))
  else
  let w := send_request w finalURL in
  match http_get env finalURL with
  | inr err => (false, log_line w ("Failed to download " ++ finalURL ++ ": " ++ err))
  | inl resp =>
    if negb (Z.eqb (StatusCode resp) 200) then
      (false, log_line w ("Download failed for " ++ finalURL ++ ": " ++ Status resp))
    else
    let contentType := ContentType resp in
    if negb (Contains contentType "application/pdf") then
      (false, log_line w ("Invalid content type for " ++ finalURL ++ ": " ++ contentType
                          ++ " (expected application/pdf)"))
    else
    match ReadErr resp with
    | Some e => (false, log_line w ("Failed to read PDF data from " ++ finalURL ++ ": " ++ e))
    | None =>
      if Nat.eqb (length (Body resp)) 0 then
        (false, log_line w ("Downloaded 0 bytes for " ++ finalURL ++ "; not creating file"))
      else
      match create_err env filePath with
      | Some e => (false, log_line w ("Failed to create file for " ++ finalURL ++ ": " ++ e))
      | None =>
        (* os.Create creates the file; what a failed write leaves in it is
           not modelled *)
        let w := put_file w filePath [] in
        match write_err env filePath with
        | Some e => (false, log_line w ("Failed to write PDF to file for " ++ finalURL ++ ": " ++ e))
        | None =>
          (true, log_line (put_file w filePath (Body resp))
                   ("Successfully downloaded: " ++ finalURL ++ " -> " ++ filePath))
        end
      end
    end
  end.

(* ------------------------------------------------------------------ *)
(** ** The orchestrator's download loop *)

(** main.go: [for _, urls := range links { downloadPDF(urls, outputFolder) }].
    Besides the final world, the loop returns the calls it made, each URL
    with downloadPDF's result (which the Go loop discards). *)
Fixpoint download_loop (env : Env) (outputFolder : string) (links : list string) (w : World)
  : World * list (string * bool) :=
  match links with
  | [] => (w, [])
  | u :: rest =>
      let '(ok, w1) := downloadPDF env u outputFolder w in
      let '(w2, calls) := download_loop env outputFolder rest w1 in
      (w2, (u, ok) :: calls)
  end.

(** removeDuplicatesFromSlice of the chromedp variants. *)
Fixpoint removeDuplicates_aux (slice : list string) (check : gset string) : list string :=
  match slice with
  | [] => []
  | content :: rest =>
      if decide (content ∈ check) then removeDuplicates_aux rest check
      else content :: removeDuplicates_aux rest ({[content]} ∪ check)
  end.

Definition removeDuplicatesFromSlice (slice : list string) : list string :=
  removeDuplicates_aux slice ∅.

(** url.ParseRequestURI starts by rejecting any control byte (below 0x20,
    or 0x7f); the rest of the parse is [ParseRequestURI_rest]. *)
Definition is_ctl (c : ascii) : bool :=
  Nat.ltb (nat_of_ascii c) 32 || Nat.eqb (nat_of_ascii c) 127.

Fixpoint stringContainsCTLByte (s : string) : bool :=
  match s with
  | EmptyString => false
  | String c s' => is_ctl c || stringContainsCTLByte s'
  end.

Definition isUrlValid (uri : string) : bool :=
  negb (stringContainsCTLByte uri) && ParseRequestURI_rest uri.

(** The loop of the chromedp variants (part_001, part_002):
    [if isUrlValid(urls) { downloadPDF(urls, outputFolder) }]. *)
Fixpoint download_loop_valid (env : Env) (outputFolder : string) (links : list string)
  (w : World) : World * list (string * bool) :=
  match links with
  | [] => (w, [])
  | u :: rest =>
      if isUrlValid u then
        let '(ok, w1) := downloadPDF env u outputFolder w in
        let '(w2, calls) := download_loop_valid env outputFolder rest w1 in
        (w2, (u, ok) :: calls)
      else download_loop_valid env outputFolder rest w
  end.

(* ------------------------------------------------------------------ *)
(** ** File helpers and the entry point (main.go) *)

(** path.Base(path), used by getFileNameOnly: "" gives "."; trailing
    slashes are dropped; then what follows the last slash is kept; an
    empty result gives "/".  Written on the reversed byte list. *)
Fixpoint drop_slashes (l : list ascii) : list ascii :=
  match l with
  | c :: l' => if Ascii.eqb c "/"%char then drop_slashes l' else l
  | [] => []
  end.

Fixpoint take_until_slash (l : list ascii) : list ascii :=
  match l with
  | c :: l' => if Ascii.eqb c "/"%char then [] else c :: take_until_slash l'
  | [] => []
  end.

Definition Base (path : string) : string :=
  if String.eqb path EmptyString then "."
  else
    match take_until_slash (drop_slashes (rev (list_ascii_of_string path))) with
    | [] => "/"
    | r => string_of_list_ascii (rev r)
    end.

(** getFileNameOnly(content). *)
Definition getFileNameOnly (content : string) : string := Base content.

(** Whether the byte [c] occurs in [s]. *)
Definition has_char (c : ascii) (s : string) : bool :=
  existsb (Ascii.eqb c) (list_ascii_of_string s).

(** Whether every byte of [s] is in the class of the link pattern. *)
Definition all_class (s : string) : bool := forallb in_class (list_ascii_of_string s).

(** string(b) for a byte slice. *)
Definition bytes_to_string (b : list Byte.byte) : string :=
  string_of_list_ascii (map ascii_of_byte b).

(** The file system's answers, as fixed oracles: the error of os.Mkdir, of
    os.OpenFile for appending, of a Write (which stops after the given
    number of bytes), of Close, and of os.ReadFile (which returns the bytes
    read before the error). *)
Record FsEnv := {
  mkdir_err : string -> option string;
  open_err : string -> option string;
  short_write : string -> option (nat * string);
  close_err : string -> option string;
  read_err : string -> option (nat * string)
}.

(** directoryExists and createDirectory over the set of directories. *)
Definition directoryExists (dirs : gset string) (path : string) : bool :=
  bool_decide (path ∈ dirs).

Definition createDirectory (fse : FsEnv) (path : string) (dirs : gset string) (w : World)
  : gset string * World :=
  match mkdir_err fse path with
  | Some e => (dirs, log_line w e)
  | None => ({[path]} ∪ dirs, w)
  end.

(** appendByteToFile(filename, data): O_APPEND|O_CREATE|O_WRONLY. *)
Definition appendByteToFile (fse : FsEnv) (filename : string) (data : list Byte.byte) (w : World)
  : World :=
  match open_err fse filename with
  | Some e => log_line w e
  | None =>
      let old := match files w !! filename with Some d => d | None => [] end in
      let '(written, lg) :=
        match short_write fse filename with
        | Some (n, e) => (firstn n data, [e])
        | None => (data, [])
        end in
      let w := {| files := <[filename := app old written]> (files w);
                  logs := app (logs w) lg; requests := requests w |} in
      match close_err fse filename with
      | Some e => log_line w e
      | None => w
      end
  end.

(** readAFileAsString(path). *)
Definition readAFileAsString (fse : FsEnv) (path : string) (w : World) : string * World :=
  match files w !! path with
  | None => (EmptyString, log_line w ("open " ++ path ++ ": no such file or directory"))
  | Some data =>
      match read_err fse path with
      | Some (n, e) => (bytes_to_string (firstn n data), log_line w e)
      | None => (bytes_to_string data, w)
      end
  end.

Definition remoteURL : string := "https://www.gojo.com/en/SDS".
Definition localFileName : string := "gojo.html".
Definition outputFolder : string := "PDFs/".

(** main() of main.go.  The page GET is recorded among the requests; a
    panic of getDataFromURL ends the process. *)
Definition main (env : Env) (fse : FsEnv) (dirs : gset string) (w : World)
  : Outcome (gset string * World) :=
  let '(dirs, w) :=
    if directoryExists dirs outputFolder then (dirs, w)
    else createDirectory fse outputFolder dirs w in
  let fetched :=
    if fileExists w localFileName then Returned w
    else
      let w := send_request w remoteURL in
      match getDataFromURL (http_get env) remoteURL (logs w) with
      | (Panicked m, _) => Panicked m
      | (Returned remoteHTML, lg) => Returned (appendByteToFile fse localFileName remoteHTML (set_logs w lg))
      end in
  match fetched with
  | Panicked m => Panicked m
  | Returned w =>
      let '(localFileContent, w) := readAFileAsString fse localFileName w in
      let extractedLocalPDFURL := extractPDFLinks localFileContent in
      Returned (dirs, fst (download_loop env outputFolder extractedLocalPDFURL w))
  end.

Open Scope list_scope.

(** First-occurrence order, read from the spec: an element of [l] is kept
    exactly when it does not occur in the part of the list before it
    ([prev] holds the elements already scanned). *)
Fixpoint first_occ_aux (prev : list string) (l : list string) : list string :=
  match l with
  | [] => []
  | x :: l' =>
      (if bool_decide (x ∈ prev) then [] else [x]) ++ first_occ_aux (prev ++ [x]) l'
  end.

Definition first_occ (l : list string) : list string := first_occ_aux [] l.

(** The matches of a text, line by line, each line matched on its own. *)
Definition all_matches (htmlContent : string) : list string :=
  concat (map FindAllString (Split_lines htmlContent)).

(* ------------------------------------------------------------------ *)
(** ** Concrete instances for the examples *)

(** The text of the spec's extraction example, on one line. *)
Definition example_text : string :=
  "https://x.test/a.pdf HTTPS://x.test/a.pdf?x=1 https://x.test/a.pdf".

(** strings.ToLower on ASCII input (its fast path): [A]-[Z] to [a]-[z]. *)
Definition lower_char (c : ascii) : ascii :=
  let n := nat_of_ascii c in
  if Nat.leb 65 n && Nat.leb n 90 then ascii_of_nat (n + 32) else c.

Definition ascii_ToLower (s : string) : string := map_chars lower_char s.

(** A URL parser for the examples: it knows one URL and rejects the rest. *)
Definition example_raw : string := "https://x.test/docs/a-b.pdf?v=1&lang=en".

Definition example_url : URL :=
  {| Host := "x.test"; Path := "/docs/a-b.pdf"; RawQuery := "v=1&lang=en" |}.

Definition example_parse (raw : string) : URL + string :=
  if String.eqb raw example_raw then inl example_url
  else inr ("parse " ++ raw ++ ": invalid URL")%string.

(** filepath.Join for a directory given with its trailing slash. *)
Definition example_join (dir name : string) : string := (dir ++ name)%string.

Definition example_env : Env :=
  {| http_get := fun _ => inl resp404; create_err := fun _ => None; write_err := fun _ => None |}.

Definition empty_world : World := {| files := ∅; logs := []; requests := [] |}.

Definition example_path : string := "PDFs/x.test__docs_a_b.pdf_v=1_lang=en.pdf".

Definition existing_world : World :=
  {| files := {[ example_path := [Byte.x25] ]}; logs := []; requests := [] |}.

(** A link with a control byte: the pattern accepts it, url.ParseRequestURI
    does not. *)
Definition ctl_link : string := ("https://a" ++ String "001" "/x.pdf")%string.

(** []byte(s) for an ASCII string. *)
Definition string_to_bytes (s : string) : list Byte.byte :=
  map byte_of_ascii (list_ascii_of_string s).

(** A PDF served with status 200. *)
Definition resp_pdf : Response := {|
  StatusCode := 200; Status := "200 OK"; ContentType := "application/pdf";
  Body := [Byte.x25; Byte.x50; Byte.x44; Byte.x46]; ReadErr := None; CloseErr := None |}.

(** The listing page, linking to the example PDF. *)
Definition page_html : string := ("<p>see " ++ example_raw ++ " here</p>")%string.

Definition resp_page : Response := {|
  StatusCode := 200; Status := "200 OK"; ContentType := "text/html";
  Body := string_to_bytes page_html; ReadErr := None; CloseErr := None |}.

(** A server with the listing page and the example PDF. *)
Definition site_env : Env := {|
  http_get := fun u =>
    if String.eqb u remoteURL then inl resp_page
    else if String.eqb u example_raw then inl resp_pdf
    else inl resp404;
  create_err := fun _ => None; write_err := fun _ => None |}.

(** No network: every GET fails before a response. *)
Definition offline_env : Env := {|
  http_get := fun u => inr ("Get " ++ u ++ ": dial tcp: connection refused")%string;
  create_err := fun _ => None; write_err := fun _ => None |}.

(** A file system that raises no error. *)
Definition fs_ok : FsEnv := {|
  mkdir_err := fun _ => None; open_err := fun _ => None; short_write := fun _ => None;
  close_err := fun _ => None; read_err := fun _ => None |}.

(** The listing page already saved as gojo.html. *)
Definition cached_world : World :=
  {| files := {[ localFileName := string_to_bytes page_html ]}; logs := []; requests := [] |}.

(* ------------------------------------------------------------------ *)
(** * Proofs *)

(** Each proof drops the library functions its statement does not
    mention, so that tactics working on the whole context (set_solver,
    tauto, congruence) do not capture them. *)
Ltac drop_library :=
  try clear url_Parse; try clear ToLower; try clear Join; try clear ParseRequestURI_rest.

Example find_all_test :
  FindAllString ("a href=" ++ String "034" "https://x.test/a.pdf" ++ String "034" " b http://y/z.pdf?q=1&r x")
  = ["https://x.test/a.pdf"; "http://y/z.pdf?q=1&r"].
Proof. drop_library. vm_compute. reflexivity. Qed.

Example extract_test :
  extractPDFLinks "https://x.test/a.pdf HTTPS://x.test/a.pdf?x=1 https://x.test/a.pdf"
  = ["https://x.test/a.pdf"].
Proof. drop_library. vm_compute. reflexivity. Qed.

(** ** Lemmas on the link extractor *)

Lemma first_occ_aux_app (prev a b : list string) :
  first_occ_aux prev (a ++ b) = first_occ_aux prev a ++ first_occ_aux (prev ++ a) b.
Proof. drop_library.
  revert prev; induction a as [|x a IH]; intros prev; simpl.
  - by rewrite app_nil_r.
  - rewrite IH, <-app_assoc. simpl. by rewrite <-!app_assoc.
Qed.

Lemma first_occ_aux_nodup (prev l : list string) :
  NoDup (first_occ_aux prev l) /\ (forall x, x ∈ first_occ_aux prev l -> x ∉ prev).
Proof. drop_library.
  revert prev; induction l as [|y l IH]; intros prev; simpl.
  - split; [constructor | intros x Hx; inversion Hx].
  - destruct (IH (prev ++ [y])) as [Hnd Hout].
    case_bool_decide as Hy; simpl.
    + split; [exact Hnd|]. intros x Hx Hp. apply (Hout x Hx). set_solver.
    + split.
      * constructor; [|exact Hnd]. intros Hin. apply (Hout y Hin). set_solver.
      * intros x Hx. apply elem_of_cons in Hx as [->|Hx]; [exact Hy|].
        intros Hp. apply (Hout x Hx). set_solver.
Qed.

Lemma add_matches_spec (ms prev : list string) (seen : gset string) (links : list string) :
  (forall x, x ∈ seen <-> x ∈ prev) ->
  (forall x, x ∈ fst (add_matches ms seen links) <-> x ∈ prev ++ ms) /\
  snd (add_matches ms seen links) = links ++ first_occ_aux prev ms.
Proof. drop_library.
  revert prev seen links; induction ms as [|m ms IH]; intros prev seen links Hs; simpl.
  - split; [intros x; rewrite app_nil_r; apply Hs | by rewrite app_nil_r].
  - case_decide as Hm.
    + assert (Hp : m ∈ prev) by (apply Hs; exact Hm).
      destruct (IH (prev ++ [m]) seen links) as [H1 H2].
      { intros x. rewrite Hs. set_solver. }
      rewrite bool_decide_eq_true_2 by exact Hp. simpl.
      split; [intros x; rewrite H1, <-app_assoc; reflexivity | exact H2].
    + assert (Hp : m ∉ prev) by (intros Hp; apply Hm, Hs, Hp).
      destruct (IH (prev ++ [m]) ({[m]} ∪ seen) (links ++ [m])) as [H1 H2].
      { intros x. rewrite elem_of_union, elem_of_singleton, Hs. set_solver. }
      rewrite bool_decide_eq_false_2 by exact Hp. simpl.
      split; [intros x; rewrite H1, <-app_assoc; reflexivity|].
      rewrite H2, <-app_assoc. reflexivity.
Qed.

Lemma scan_lines_spec (lines prev : list string) (seen : gset string) (links : list string) :
  (forall x, x ∈ seen <-> x ∈ prev) ->
  snd (scan_lines lines seen links)
  = links ++ first_occ_aux prev (concat (map FindAllString lines)).
Proof. drop_library.
  revert prev seen links; induction lines as [|l ls IH]; intros prev seen links Hs; simpl.
  - by rewrite app_nil_r.
  - destruct (add_matches_spec (FindAllString l) prev seen links Hs) as [H1 H2].
    destruct (add_matches (FindAllString l) seen links) as [seen' links'] eqn:E.
    simpl in H1, H2. rewrite (IH (prev ++ FindAllString l) seen' links' H1), H2.
    by rewrite first_occ_aux_app, <-app_assoc.
Qed.

(** [C2] For every input text, extractPDFLinks returns no string twice, and
    in the first-occurrence order of the matches found by splitting the text
    on newlines and matching the pattern within each line on its own. *)
Theorem extractPDFLinks_unique_first_seen (htmlContent : string) :
  NoDup (extractPDFLinks htmlContent) /\
  extractPDFLinks htmlContent = first_occ (all_matches htmlContent).
Proof. drop_library.
  assert (E : extractPDFLinks htmlContent = first_occ (all_matches htmlContent)).
  { unfold extractPDFLinks, first_occ, all_matches.
    rewrite (scan_lines_spec _ [] ∅ []); [reflexivity|].
    intros x. split; intros Hx; [destruct (not_elem_of_empty x Hx)|inversion Hx]. }
  split; [|exact E].
  rewrite E. apply first_occ_aux_nodup.
Qed.

(** [C3] counterexample: on a text holding [https://x.test/a.pdf],
    [HTTPS://x.test/a.pdf?x=1] and again [https://x.test/a.pdf],
    extractPDFLinks does not return two links. *)
Lemma extractPDFLinks_example_not_two :
  length (extractPDFLinks example_text) <> 2.
Proof. drop_library. vm_compute. discriminate. Qed.

(** [C3] amended: the pattern is case-sensitive, so the upper-case
    [HTTPS://] occurrence is not matched: on that text, whether on one line
    or on three, extractPDFLinks returns exactly one link,
    [https://x.test/a.pdf]. *)
Theorem extractPDFLinks_example_one_link :
  extractPDFLinks example_text = ["https://x.test/a.pdf"] /\
  extractPDFLinks ("https://x.test/a.pdf" ++ String "010" ("HTTPS://x.test/a.pdf?x=1"
                   ++ String "010" "https://x.test/a.pdf"))%string
  = ["https://x.test/a.pdf"].
Proof. drop_library. split; vm_compute; reflexivity. Qed.

(** ** Lemmas on the filename deriver *)

Lemma append_String (x : ascii) (a b : string) :
  (String x a ++ b)%string = String x (a ++ b)%string.
Proof. drop_library. reflexivity. Qed.

Lemma append_Empty (b : string) : (EmptyString ++ b)%string = b.
Proof. drop_library. reflexivity. Qed.

Lemma string_app_assoc (a b c : string) : ((a ++ b) ++ c)%string = (a ++ (b ++ c))%string.
Proof. drop_library.
  induction a as [|x a IH]; [reflexivity|].
  rewrite !append_String, IH. reflexivity.
Qed.

Lemma string_app_nil_r (a : string) : (a ++ EmptyString)%string = a.
Proof. drop_library. induction a as [|x a IH]; [reflexivity|by rewrite append_String, IH]. Qed.

Lemma ReplaceAll_underscore (s : string) (ch : ascii) :
  ReplaceAll s ch "_" = map_chars (fun c => if Ascii.eqb c ch then "_"%char else c) s.
Proof. drop_library.
  induction s as [|c s IH]; simpl; [reflexivity|].
  destruct (Ascii.eqb c ch); simpl; rewrite ?append_String, ?append_Empty; by rewrite IH.
Qed.

Lemma map_chars_map_chars (f g : ascii -> ascii) (s : string) :
  map_chars f (map_chars g s) = map_chars (fun c => f (g c)) s.
Proof. drop_library. induction s as [|c s IH]; simpl; [reflexivity|by rewrite IH]. Qed.

Lemma map_chars_ext (f g : ascii -> ascii) (s : string) :
  (forall c, f c = g c) -> map_chars f s = map_chars g s.
Proof. drop_library. intros H; induction s as [|c s IH]; simpl; [reflexivity|by rewrite H, IH]. Qed.

Lemma map_chars_id (s : string) : map_chars (fun c => c) s = s.
Proof. drop_library. induction s as [|c s IH]; simpl; [reflexivity|by rewrite IH]. Qed.

Lemma fold_ReplaceAll (chs : list ascii) (f0 : ascii -> ascii) (s : string) :
  fold_left (fun f ch => ReplaceAll f ch "_") chs (map_chars f0 s)
  = map_chars (replace_loop_char chs f0) s.
Proof. drop_library.
  revert f0; induction chs as [|ch chs IH]; intros f0; simpl; [reflexivity|].
  rewrite ReplaceAll_underscore, map_chars_map_chars. apply IH.
Qed.

(** Replacing the blocklist one character after the other is the same as
    one simultaneous replacement, since [_] is not in the blocklist. *)
Lemma replace_loop_char_blocked (c : ascii) :
  replace_loop_char invalidChars (fun c => c) c = if blocked c then "_"%char else c.
Proof. drop_library.
  destruct c as [b0 b1 b2 b3 b4 b5 b6 b7].
  destruct b0, b1, b2, b3, b4, b5, b6, b7; vm_compute; reflexivity.
Qed.

Lemma sanitize_loop (s : string) :
  fold_left (fun f ch => ReplaceAll f ch "_") invalidChars s
  = map_chars (fun c => if blocked c then "_"%char else c) s.
Proof. drop_library.
  rewrite <-(map_chars_id s) at 1. rewrite fold_ReplaceAll.
  apply map_chars_ext, replace_loop_char_blocked.
Qed.

Lemma ext_scan_pdf (s : string) :
  ext_scan s = Some ".pdf" <-> HasSuffix s ".pdf" = true.
Proof. drop_library.
  induction s as [|c s IH]; simpl; [split; discriminate|].
  destruct (HasSuffix s ".pdf") eqn:Hs.
  - rewrite orb_true_r. assert (He : ext_scan s = Some ".pdf") by (apply IH; reflexivity).
    rewrite He. tauto.
  - rewrite orb_false_r.
    assert (Hne : ext_scan s <> Some ".pdf") by (intros H; apply IH in H; discriminate).
    destruct (ext_scan s) as [e|] eqn:He.
    + split; [intros H; congruence|].
      intros Heq. destruct (Ascii.eqb c ".") eqn:Hc; [|discriminate].
      apply String.eqb_eq in Heq. subst s. discriminate He.
    + destruct (Ascii.eqb c ".") eqn:Hc.
      * apply Ascii.eqb_eq in Hc. subst c. split; intros H.
        -- injection H as H. rewrite H. reflexivity.
        -- apply String.eqb_eq in H. subst s. reflexivity.
      * destruct (Ascii.eqb c "/"); split; discriminate.
Qed.

Lemma getFileExtension_pdf (s : string) :
  String.eqb (getFileExtension s) ".pdf" = HasSuffix s ".pdf".
Proof. drop_library.
  unfold getFileExtension.
  destruct (HasSuffix s ".pdf") eqn:Hs.
  - apply ext_scan_pdf in Hs. by rewrite Hs.
  - destruct (ext_scan s) as [e|] eqn:He; [|reflexivity].
    apply String.eqb_neq. intros ->. apply ext_scan_pdf in He. congruence.
Qed.

(** urlToFilename on a parsed URL computes the spec's sanitizing policy. *)
Lemma urlToFilename_parsed (rawURL : string) (lg : list string) (u : URL) :
  url_Parse rawURL = inl u -> urlToFilename rawURL lg = (spec_filename u, lg).
Proof. drop_library.
  intros Hp. unfold urlToFilename, spec_filename. rewrite Hp.
  rewrite getFileExtension_pdf, sanitize_loop.
  f_equal. f_equal.
  destruct (String.eqb (Path u) "") eqn:HP, (String.eqb (RawQuery u) "") eqn:HQ; simpl;
    rewrite ?string_app_nil_r, ?string_app_assoc;
    destruct (HasSuffix _ _); reflexivity.
Qed.

(** [C4] For every URL that parses, urlToFilename builds host, then [_]
    and the path with [/] replaced by [_] when the path is not empty, then
    [_] and the query with [&] replaced by [_] when the query is not empty;
    replaces every character of the blocklist by [_]; appends [.pdf] unless
    the result already ends with it; and lower-cases the whole result. *)
Theorem urlToFilename_sanitizing_policy (rawURL : string) (lg : list string) (u : URL) :
  url_Parse rawURL = inl u ->
  fst (urlToFilename rawURL lg)
  = ToLower
      (let base :=
         Host u
         ++ (if String.eqb (Path u) EmptyString then EmptyString
             else "_" ++ ReplaceAll (Path u) "/"%char "_")
         ++ (if String.eqb (RawQuery u) EmptyString then EmptyString
             else "_" ++ ReplaceAll (RawQuery u) "&"%char "_") in
       let safe := map_chars (fun c => if blocked c then "_"%char else c) base in
       if HasSuffix safe ".pdf" then safe else safe ++ ".pdf")%string.
Proof. drop_library.
  intros Hp. rewrite (urlToFilename_parsed rawURL lg u Hp). reflexivity.
Qed.

(** [C6] urlToFilename is deterministic: the name it returns depends on
    the URL only, not on the state it runs in, so two applications to the
    same URL, one after the other, give the same name. *)
Theorem urlToFilename_deterministic (rawURL : string) (lg1 lg2 : list string) :
  fst (urlToFilename rawURL lg1) = fst (urlToFilename rawURL lg2) /\
  fst (urlToFilename rawURL (snd (urlToFilename rawURL lg1)))
  = fst (urlToFilename rawURL lg1).
Proof. drop_library.
  unfold urlToFilename. destruct (url_Parse rawURL); split; reflexivity.
Qed.

(** [C8] For every URL whose parse fails, urlToFilename logs the error and
    returns the empty string. *)
Theorem urlToFilename_parse_error (rawURL : string) (lg : list string) (err : string) :
  url_Parse rawURL = inr err ->
  urlToFilename rawURL lg = (EmptyString, lg ++ [err]).
Proof. drop_library. intros Hp. unfold urlToFilename. rewrite Hp. reflexivity. Qed.

Lemma HasSuffix_app (t suf : string) : HasSuffix (t ++ suf) suf = true.
Proof. drop_library.
  induction t as [|c t IH].
  - rewrite append_Empty. destruct suf as [|c s']; [reflexivity|]. cbn [HasSuffix].
    rewrite String.eqb_refl. reflexivity.
  - rewrite append_String. simpl. rewrite IH, orb_true_r. reflexivity.
Qed.

Lemma HasSuffix_inv (s suf : string) : HasSuffix s suf = true -> exists t, s = (t ++ suf)%string.
Proof. drop_library.
  induction s as [|c s IH]; cbn [HasSuffix]; intros H.
  - rewrite orb_false_r in H. apply String.eqb_eq in H. subst. by exists EmptyString.
  - apply orb_true_iff in H as [H|H].
    + apply String.eqb_eq in H. exists EmptyString. by subst.
    + destruct (IH H) as [t ->]. exists (String c t). reflexivity.
Qed.

Lemma has_blocked_app (a b : string) :
  has_blocked (a ++ b) = has_blocked a || has_blocked b.
Proof. drop_library.
  unfold has_blocked. induction a as [|c a IH]; [reflexivity|].
  rewrite append_String. simpl. rewrite IH. apply orb_assoc.
Qed.

Lemma has_blocked_sanitized (s : string) :
  has_blocked (map_chars (fun c => if blocked c then "_"%char else c) s) = false.
Proof. drop_library.
  unfold has_blocked. induction s as [|c s IH]; [reflexivity|]. simpl.
  rewrite IH, orb_false_r.
  destruct (blocked c) eqn:Hc; [reflexivity|exact Hc].
Qed.

(** [C9] For every URL that parses, the name urlToFilename returns ends
    with [.pdf], equals its own lower-casing and holds no character of the
    blocklist.  The three facts used of strings.ToLower are properties of
    Go's Unicode lower-casing: it is idempotent, it leaves a final [.pdf]
    in place, and no rune lower-cases to a blocklist character. *)
Theorem urlToFilename_name_invariants (rawURL : string) (lg : list string) (u : URL) :
  (forall s, ToLower (ToLower s) = ToLower s) ->
  (forall s, ToLower (s ++ ".pdf")%string = (ToLower s ++ ".pdf")%string) ->
  (forall s, has_blocked s = false -> has_blocked (ToLower s) = false) ->
  url_Parse rawURL = inl u ->
  let name := fst (urlToFilename rawURL lg) in
  HasSuffix name ".pdf" = true /\ ToLower name = name /\ has_blocked name = false.
Proof. drop_library.
  intros Hidem Hsuf Hblk Hp name. subst name.
  rewrite (urlToFilename_parsed rawURL lg u Hp). simpl. unfold spec_filename.
  set (safe := map_chars _ _).
  assert (Hsafe : has_blocked safe = false) by apply has_blocked_sanitized.
  split; [|split; [apply Hidem|]].
  - destruct (HasSuffix safe ".pdf") eqn:Hs.
    + destruct (HasSuffix_inv _ _ Hs) as [t Ht]. rewrite Ht, Hsuf. apply HasSuffix_app.
    + rewrite Hsuf. apply HasSuffix_app.
  - apply Hblk. destruct (HasSuffix safe ".pdf"); [exact Hsafe|].
    rewrite has_blocked_app, Hsafe. reflexivity.
Qed.

(** ** Downloader, fetcher and loop *)

(** A branch of downloadPDF that leaves the files alone creates no file
    at a path that had none. *)
Ltac no_new_file H Hn :=
  simpl in H; rewrite Hn in H; destruct H as [? H]; discriminate.

(** [C1] When a validation step fails (the status is not 200, the
    Content-Type does not contain [application/pdf], or the body is empty)
    downloadPDF returns false and the files are left as they were; and a
    file appears at the derived path only when the response passed every
    check and its body was read in full and is not empty. *)
Theorem downloadPDF_no_file_unless_valid (env : Env) (finalURL outputDir : string) (w : World) :
  (forall resp, http_get env finalURL = inl resp ->
     (StatusCode resp <> 200%Z \/ Contains (ContentType resp) "application/pdf" = false
      \/ Body resp = []) ->
     fst (downloadPDF env finalURL outputDir w) = false /\
     files (snd (downloadPDF env finalURL outputDir w)) = files w) /\
  (files w !! Join outputDir (fst (urlToFilename finalURL (logs w))) = None ->
   is_Some (files (snd (downloadPDF env finalURL outputDir w))
              !! Join outputDir (fst (urlToFilename finalURL (logs w)))) ->
   exists resp, http_get env finalURL = inl resp /\ StatusCode resp = 200%Z /\
     Contains (ContentType resp) "application/pdf" = true /\
     ReadErr resp = None /\ Body resp <> []).
Proof. drop_library.
  unfold downloadPDF.
  destruct (urlToFilename finalURL (logs w)) as [fn lg]; simpl.
  split.
  - intros resp Hget Hfail.
    destruct (fileExists _ _); [split; reflexivity|].
    rewrite Hget.
    destruct (Z.eqb_spec (StatusCode resp) 200) as [Hs|Hs]; simpl; [|split; reflexivity].
    destruct (Contains (ContentType resp) "application/pdf") eqn:Hc; simpl;
      [|split; reflexivity].
    destruct (ReadErr resp); [split; reflexivity|].
    destruct Hfail as [H|[H|H]]; [contradiction|discriminate|].
    rewrite H. split; reflexivity.
  - intros Hnone Hsome.
    assert (Hfe : fileExists (set_logs w lg) (Join outputDir fn) = false)
      by (unfold fileExists; simpl; rewrite Hnone; reflexivity).
    rewrite Hfe in Hsome.
    destruct (http_get env finalURL) as [resp|err]; [|no_new_file Hsome Hnone].
    exists resp. split; [reflexivity|].
    destruct (Z.eqb_spec (StatusCode resp) 200) as [Hs|Hs]; simpl in Hsome;
      [|no_new_file Hsome Hnone].
    destruct (Contains (ContentType resp) "application/pdf") eqn:Hc; simpl in Hsome;
      [|no_new_file Hsome Hnone].
    destruct (ReadErr resp) eqn:Hr; [no_new_file Hsome Hnone|].
    destruct (Nat.eqb_spec (length (Body resp)) 0) as [Hl|Hl]; [no_new_file Hsome Hnone|].
    repeat split; try assumption.
    intros Hb. apply Hl. rewrite Hb. reflexivity.
Qed.

(** [C10] When a file already exists at the derived path, downloadPDF
    returns false, sends no HTTP request and changes no file. *)
Theorem downloadPDF_existing_file (env : Env) (finalURL outputDir : string) (w : World) :
  fileExists w (Join outputDir (fst (urlToFilename finalURL (logs w)))) = true ->
  fst (downloadPDF env finalURL outputDir w) = false /\
  files (snd (downloadPDF env finalURL outputDir w)) = files w /\
  requests (snd (downloadPDF env finalURL outputDir w)) = requests w.
Proof. drop_library.
  unfold downloadPDF.
  destruct (urlToFilename finalURL (logs w)) as [fn lg]; simpl. intros Hex.
  change (fileExists (set_logs w lg) (Join outputDir fn)) with (fileExists w (Join outputDir fn)).
  rewrite Hex. repeat split.
Qed.

(** [C5] counterexample: for a 404 response, getDataFromURL logs nothing
    about the status and returns the (non-empty) error page. *)
Lemma getDataFromURL_404_returns_page :
  getDataFromURL (fun _ => inl resp404) "https://www.gojo.com/en/SDS" []
  = (Returned [Byte.x4e], ["Scraping https://www.gojo.com/en/SDS"]).
Proof. drop_library. reflexivity. Qed.

(** [C5] amended: getDataFromURL does not look at the status code.
    Whenever the GET yields a response, whatever its status, it returns the
    body bytes read (on a body-read error, the bytes read before the error)
    and does not fail; it logs the URL, then the body-read error and the
    close error, if any. *)
Theorem getDataFromURL_response_body (http_Get : string -> Response + string) (uri : string)
  (lg : list string) (resp : Response) :
  http_Get uri = inl resp ->
  getDataFromURL http_Get uri lg
  = (Returned (Body resp),
     lg ++ ["Scraping " ++ uri]%string ++ opt_log (ReadErr resp) ++ opt_log (CloseErr resp)).
Proof. drop_library.
  intros Hg. unfold getDataFromURL. rewrite Hg. by rewrite <-!app_assoc.
Qed.

Lemma download_loop_app (env : Env) (outputFolder : string) (l1 l2 : list string) (w : World) :
  download_loop env outputFolder (l1 ++ l2) w
  = let '(w1, c1) := download_loop env outputFolder l1 w in
    let '(w2, c2) := download_loop env outputFolder l2 w1 in
    (w2, c1 ++ c2).
Proof. drop_library.
  revert w; induction l1 as [|u l1 IH]; intros w; simpl.
  - by destruct (download_loop env outputFolder l2 w).
  - destruct (downloadPDF env u outputFolder w) as [ok w1].
    rewrite IH. destruct (download_loop env outputFolder l1 w1) as [w2 c1].
    by destruct (download_loop env outputFolder l2 w2).
Qed.

(** [C7] amended: main.go's loop calls downloadPDF on every link, in
    order, whatever the earlier calls returned, and always completes; each
    call runs on the state the earlier calls left.  The loop of the
    chromedp variants calls it, in order, exactly on the links that pass
    isUrlValid. *)
Theorem download_loops_attempt_links (env : Env) (outputFolder : string) (links : list string)
  (w : World) :
  map fst (snd (download_loop env outputFolder links w)) = links /\
  (forall l1 l2, links = l1 ++ l2 ->
     download_loop env outputFolder links w
     = let '(w1, c1) := download_loop env outputFolder l1 w in
       let '(w2, c2) := download_loop env outputFolder l2 w1 in
       (w2, c1 ++ c2)) /\
  map fst (snd (download_loop_valid env outputFolder links w)) = List.filter isUrlValid links.
Proof. drop_library.
  split; [|split].
  - revert w; induction links as [|u rest IH]; intros w; simpl; [reflexivity|].
    destruct (downloadPDF env u outputFolder w) as [ok w1].
    specialize (IH w1). destruct (download_loop env outputFolder rest w1) as [w2 c].
    simpl in *. by rewrite IH.
  - intros l1 l2 ->. apply download_loop_app.
  - revert w; induction links as [|u rest IH]; intros w; simpl; [reflexivity|].
    destruct (isUrlValid u); [|apply IH].
    destruct (downloadPDF env u outputFolder w) as [ok w1].
    specialize (IH w1). destruct (download_loop_valid env outputFolder rest w1) as [w2 c].
    simpl in *. by rewrite IH.
Qed.

(* ------------------------------------------------------------------ *)
(** ** Further properties of the code *)

(** *** The shape of an extracted link *)

Lemma string_length_app (a b : string) :
  String.length (a ++ b) = String.length a + String.length b.
Proof. drop_library. induction a as [|c a IH]; [reflexivity|]. rewrite append_String. simpl. by rewrite IH. Qed.

Lemma list_ascii_of_string_app (a b : string) :
  list_ascii_of_string (a ++ b) = list_ascii_of_string a ++ list_ascii_of_string b.
Proof. drop_library. induction a as [|c a IH]; [reflexivity|]. rewrite append_String. simpl. by rewrite IH. Qed.

Lemma all_class_app (a b : string) : all_class (a ++ b) = all_class a && all_class b.
Proof. drop_library. unfold all_class. by rewrite list_ascii_of_string_app, forallb_app. Qed.

Lemma prefix_inv (a s : string) : String.prefix a s = true -> exists t, s = (a ++ t)%string.
Proof.
  drop_library. revert s; induction a as [|c a IH]; intros s H; [by exists s|].
  destruct s as [|d s]; simpl in H; [discriminate|].
  destruct (ascii_dec c d) as [->|]; [|discriminate].
  destruct (IH s H) as [t ->]. by exists t.
Qed.

Lemma substring_0_all (t : string) (m : nat) : String.length t <= m -> substring 0 m t = t.
Proof.
  drop_library. revert m; induction t as [|c t IH]; intros m Hm; destruct m as [|m]; simpl in *;
    try reflexivity; try lia.
  rewrite IH; [reflexivity|lia].
Qed.

Lemma substring_skip (a t : string) (m : nat) :
  substring (String.length a) m (a ++ t) = substring 0 m t.
Proof. drop_library. induction a as [|c a IH]; [reflexivity|]. rewrite append_String. exact IH. Qed.

Lemma substring_prefix (a r : string) : substring 0 (String.length a) (a ++ r) = a.
Proof.
  drop_library. induction a as [|c a IH]; [by destruct r|].
  rewrite append_String. simpl. by rewrite IH.
Qed.

Lemma class_run_spec (t : string) :
  exists a r, t = (a ++ r)%string /\ String.length a = class_run t /\ all_class a = true.
Proof.
  drop_library. induction t as [|c t IH].
  - by exists EmptyString, EmptyString.
  - simpl. destruct (in_class c) eqn:Hc.
    + destruct IH as (a & r & -> & Hl & Ha). exists (String c a), r.
      split; [reflexivity|]. split; [simpl; by rewrite Hl|].
      unfold all_class in *. simpl. by rewrite Hc, Ha.
    + by exists EmptyString, (String c t).
Qed.

Lemma query_len_spec (t : string) :
  exists q r, t = (q ++ r)%string /\ String.length q = query_len t /\ all_class q = true /\
    (q = EmptyString \/ exists q', q = String "?" q').
Proof.
  drop_library. destruct t as [|c t]; [by exists EmptyString, EmptyString; auto|].
  unfold query_len. destruct (Ascii.eqb c "?") eqn:Hc.
  - apply Ascii.eqb_eq in Hc. subst c.
    destruct (class_run_spec t) as (a & r & -> & Hl & Ha).
    exists (String "?" a), r. split; [reflexivity|]. split; [simpl; by rewrite Hl|].
    split; [unfold all_class in *; simpl; exact Ha|]. right. by exists a.
  - exists EmptyString, (String c t). auto.
Qed.

Lemma lazy_body_spec (s : string) (n : nat) :
  lazy_body s = Some n ->
  exists body q r, s = (body ++ ".pdf" ++ q ++ r)%string /\
    n = String.length body + 4 + String.length q /\ body <> EmptyString /\
    all_class body = true /\ all_class q = true /\
    (q = EmptyString \/ exists q', q = String "?" q').
Proof.
  drop_library. revert n; induction s as [|c s IH]; intros n H; simpl in H; [discriminate|].
  destruct (in_class c) eqn:Hc; [|discriminate].
  destruct (String.prefix ".pdf" s) eqn:Hp.
  - destruct (prefix_inv _ _ Hp) as [t ->]. injection H as <-.
    rewrite string_length_app.
    rewrite append_Empty, substring_0_all by lia.
    destruct (query_len_spec t) as (q & r & -> & Hl & Hq & Hshape).
    exists (String c EmptyString), q, r.
    split; [reflexivity|]. split; [simpl; lia|]. split; [discriminate|].
    split; [unfold all_class; simpl; by rewrite Hc|]. auto.
  - destruct (lazy_body s) as [n'|] eqn:Hl; simpl in H; [|discriminate].
    injection H as <-. destruct (IH n' eq_refl) as (body & q & r & -> & Hn & Hb & Hcb & Hq & Hs).
    exists (String c body), q, r.
    split; [reflexivity|]. split; [simpl; lia|]. split; [discriminate|].
    split; [unfold all_class in *; simpl; by rewrite Hc, Hcb|]. auto.
Qed.

Lemma match_at_spec (s : string) (n : nat) :
  match_at s = Some n ->
  exists scheme body q, substring 0 n s = (scheme ++ body ++ ".pdf" ++ q)%string /\
    (scheme = "http://" \/ scheme = "https://") /\ body <> EmptyString /\
    all_class body = true /\ all_class q = true /\
    (q = EmptyString \/ exists q', q = String "?" q').
Proof.
  drop_library. unfold match_at. intros H.
  assert (Hcase : forall scheme, String.prefix scheme s = true ->
            option_map (Nat.add (String.length scheme))
              (lazy_body (substring (String.length scheme) (String.length s) s)) = Some n ->
            exists body q, substring 0 n s = (scheme ++ body ++ ".pdf" ++ q)%string /\
              body <> EmptyString /\ all_class body = true /\ all_class q = true /\
              (q = EmptyString \/ exists q', q = String "?" q')).
  { intros scheme Hp Hm. destruct (prefix_inv _ _ Hp) as [t ->].
    rewrite substring_skip, substring_0_all in Hm by (rewrite string_length_app; lia).
    destruct (lazy_body t) as [m|] eqn:Hl; simpl in Hm; [|discriminate].
    injection Hm as <-.
    destruct (lazy_body_spec t m Hl) as (body & q & r & -> & -> & Hb & Hcb & Hq & Hs).
    exists body, q. split; [|auto].
    replace (scheme ++ body ++ ".pdf" ++ q ++ r)%string
      with ((scheme ++ body ++ ".pdf" ++ q) ++ r)%string by (rewrite !string_app_assoc; reflexivity).
    replace (String.length scheme + (String.length body + 4 + String.length q))
      with (String.length (scheme ++ body ++ ".pdf" ++ q)%string)
      by (rewrite !string_length_app; simpl; lia).
    apply substring_prefix. }
  destruct (String.prefix "https://" s) eqn:H1.
  - destruct (Hcase "https://" H1 H) as (body & q & ?). exists "https://", body, q. tauto.
  - destruct (String.prefix "http://" s) eqn:H2; [|discriminate].
    destruct (Hcase "http://" H2 H) as (body & q & ?). exists "http://", body, q. tauto.
Qed.

Lemma find_all_aux_spec (s : string) (k : nat) (m : string) :
  m ∈ find_all_aux s k -> exists s' n, match_at s' = Some n /\ m = substring 0 n s'.
Proof.
  drop_library. revert k; induction s as [|c s IH]; intros k H; simpl in H.
  - inversion H.
  - destruct k as [|k]; [|exact (IH k H)].
    destruct (match_at (String c s)) as [n|] eqn:Hm; [|exact (IH 0 H)].
    apply elem_of_cons in H as [->|H]; [by exists (String c s), n|exact (IH _ H)].
Qed.

Lemma first_occ_aux_elem (prev l : list string) (x : string) :
  x ∈ first_occ_aux prev l \/ x ∈ prev <-> x ∈ l \/ x ∈ prev.
Proof.
  drop_library. revert prev; induction l as [|y l IH]; intros prev; simpl.
  - split; intros [H|H]; auto; inversion H.
  - specialize (IH (prev ++ [y])). rewrite elem_of_app, list_elem_of_singleton in IH.
    rewrite elem_of_app, elem_of_cons.
    case_bool_decide as Hy.
    + assert (x = y -> x ∈ prev) by (intros ->; exact Hy).
      rewrite elem_of_nil. tauto.
    + rewrite list_elem_of_singleton. tauto.
Qed.

Lemma extractPDFLinks_eq_first_occ (htmlContent : string) :
  extractPDFLinks htmlContent = first_occ (all_matches htmlContent).
Proof.
  drop_library. unfold extractPDFLinks, first_occ, all_matches.
  rewrite (scan_lines_spec _ [] ∅ []); [reflexivity|].
  intros x. split; intros Hx; [destruct (not_elem_of_empty x Hx)|inversion Hx].
Qed.

Lemma extractPDFLinks_nodup (htmlContent : string) : NoDup (extractPDFLinks htmlContent).
Proof. drop_library. rewrite extractPDFLinks_eq_first_occ. apply first_occ_aux_nodup. Qed.

Lemma extractPDFLinks_in_all_matches (htmlContent link : string) :
  link ∈ extractPDFLinks htmlContent -> link ∈ all_matches htmlContent.
Proof.
  drop_library. intros H. rewrite extractPDFLinks_eq_first_occ in H.
  unfold first_occ in H. destruct (proj1 (first_occ_aux_elem [] _ link) (or_introl H)) as [?|Hn];
    [assumption|inversion Hn].
Qed.

Lemma extractPDFLinks_link_shape_aux (htmlContent link : string) :
  link ∈ extractPDFLinks htmlContent ->
  exists scheme body q, link = (scheme ++ body ++ ".pdf" ++ q)%string /\
    (scheme = "http://" \/ scheme = "https://") /\ body <> EmptyString /\
    (q = EmptyString \/ exists q', q = String "?" q') /\ all_class link = true.
Proof.
  drop_library. intros H. apply extractPDFLinks_in_all_matches in H.
  unfold all_matches in H. apply list_elem_of_In, in_concat in H as (ms & Hms & Hin).
  apply in_map_iff in Hms as (line & <- & _). apply list_elem_of_In in Hin.
  destruct (find_all_aux_spec _ _ _ Hin) as (s' & n & Hm & ->).
  destruct (match_at_spec _ _ Hm) as (scheme & body & q & -> & Hsch & Hb & Hcb & Hq & Hs).
  exists scheme, body, q. split; [reflexivity|]. split; [exact Hsch|]. split; [exact Hb|].
  split; [exact Hs|].
  rewrite !all_class_app, Hcb, Hq. by destruct Hsch as [-> | ->].
Qed.

(** X3: every extracted link is a scheme, a non-empty body, ".pdf" and an
    optional query starting with "?", and holds none of the excluded
    characters (white space, quotes, angle brackets). *)
Theorem extractPDFLinks_link_shape (htmlContent link : string) :
  link ∈ extractPDFLinks htmlContent ->
  exists scheme body q, link = (scheme ++ body ++ ".pdf" ++ q)%string /\
    (scheme = "http://" \/ scheme = "https://") /\ body <> EmptyString /\
    (q = EmptyString \/ exists q', q = String "?" q') /\ all_class link = true.
Proof. drop_library. apply extractPDFLinks_link_shape_aux. Qed.

(** *** removeDuplicatesFromSlice *)

Lemma removeDuplicates_aux_first_occ (l : list string) (check : gset string) (prev : list string) :
  (forall x, x ∈ check <-> x ∈ prev) ->
  removeDuplicates_aux l check = first_occ_aux prev l.
Proof.
  drop_library. revert check prev; induction l as [|y l IH]; intros check prev Hs; simpl; [done|].
  case_bool_decide as Hy; destruct (decide (y ∈ check)) as [Hc|Hc].
  - apply IH. intros x. rewrite elem_of_app, list_elem_of_singleton, Hs.
    split; [tauto|intros [?| ->]; auto].
  - exfalso. apply Hc, Hs, Hy.
  - exfalso. apply Hy, Hs, Hc.
  - simpl. f_equal. apply IH. intros x.
    rewrite elem_of_union, elem_of_singleton, elem_of_app, list_elem_of_singleton, Hs. tauto.
Qed.

Lemma removeDuplicates_aux_nodup (l : list string) (check : gset string) :
  NoDup l -> (forall x, x ∈ l -> x ∉ check) -> removeDuplicates_aux l check = l.
Proof.
  drop_library. revert check; induction l as [|y l IH]; intros check Hnd Hout; simpl; [done|].
  apply NoDup_cons in Hnd as [Hy Hnd].
  destruct (decide (y ∈ check)) as [Hc|Hc].
  - exfalso. exact (Hout y (list_elem_of_here y l) Hc).
  - f_equal. apply IH; [exact Hnd|]. intros x Hx.
    rewrite elem_of_union, elem_of_singleton. intros [->|Hxc]; [exact (Hy Hx)|].
    exact (Hout x (list_elem_of_further x y l Hx) Hxc).
Qed.

(** X1: removeDuplicatesFromSlice keeps the first occurrence of each
    element, in order: the result has no duplicate and the same elements. *)
Theorem removeDuplicatesFromSlice_first_occurrences (slice : list string) :
  removeDuplicatesFromSlice slice = first_occ slice /\
  NoDup (removeDuplicatesFromSlice slice) /\
  (forall x, x ∈ removeDuplicatesFromSlice slice <-> x ∈ slice).
Proof.
  drop_library. assert (E : removeDuplicatesFromSlice slice = first_occ slice).
  { apply removeDuplicates_aux_first_occ. intros x. split; intros H; [set_solver|inversion H]. }
  rewrite E. split; [reflexivity|]. split; [exact (proj1 (first_occ_aux_nodup [] slice))|].
  intros x. pose proof (first_occ_aux_elem [] slice x) as Hx. rewrite elem_of_nil in Hx.
  unfold first_occ. tauto.
Qed.

(** X2: in the chromedp variants, removing duplicates from the extracted
    links changes nothing, since extractPDFLinks already returns each link once. *)
Theorem removeDuplicatesFromSlice_extractPDFLinks (htmlContent : string) :
  removeDuplicatesFromSlice (extractPDFLinks htmlContent) = extractPDFLinks htmlContent.
Proof.
  drop_library. apply removeDuplicates_aux_nodup.
  - rewrite extractPDFLinks_eq_first_occ. apply first_occ_aux_nodup.
  - intros x _. apply not_elem_of_empty.
Qed.

(** *** downloadPDF: what a call changes *)

Lemma urlToFilename_logs (rawURL : string) (lg : list string) :
  exists new, snd (urlToFilename rawURL lg) = lg ++ new.
Proof.
  drop_library. unfold urlToFilename. destruct (url_Parse rawURL); simpl.
  - exists []. by rewrite app_nil_r.
  - by eexists.
Qed.

Lemma urlToFilename_name_logs (rawURL : string) (lg lg' : list string) :
  fst (urlToFilename rawURL lg) = fst (urlToFilename rawURL lg').
Proof. drop_library. unfold urlToFilename. by destruct (url_Parse rawURL). Qed.

Lemma downloadPDF_frame_aux (env : Env) (finalURL outputDir : string) (w : World) :
  (forall p, p <> Join outputDir (fst (urlToFilename finalURL (logs w))) ->
     files (snd (downloadPDF env finalURL outputDir w)) !! p = files w !! p) /\
  (requests (snd (downloadPDF env finalURL outputDir w)) = requests w \/
   requests (snd (downloadPDF env finalURL outputDir w)) = requests w ++ [finalURL]) /\
  (exists new, logs (snd (downloadPDF env finalURL outputDir w)) = logs w ++ new).
Proof.
  drop_library. pose proof (urlToFilename_logs finalURL (logs w)) as [new Hnew].
  unfold downloadPDF. destruct (urlToFilename finalURL (logs w)) as [fn lg]. simpl in Hnew |- *.
  subst lg. repeat case_match; simpl; (split; [|split]);
    try (intros p Hp; rewrite ?lookup_insert_ne by congruence; reflexivity);
    try (by left); try (by right);
    eexists; rewrite <-?app_assoc; reflexivity.
Qed.

(** X4: a call of downloadPDF changes no file other than the one at the
    derived path, sends at most one request (to the URL it was given), and
    only appends to the log. *)
Theorem downloadPDF_frame (env : Env) (finalURL outputDir : string) (w : World) :
  (forall p, p <> Join outputDir (fst (urlToFilename finalURL (logs w))) ->
     files (snd (downloadPDF env finalURL outputDir w)) !! p = files w !! p) /\
  (requests (snd (downloadPDF env finalURL outputDir w)) = requests w \/
   requests (snd (downloadPDF env finalURL outputDir w)) = requests w ++ [finalURL]) /\
  (exists new, logs (snd (downloadPDF env finalURL outputDir w)) = logs w ++ new).
Proof. drop_library. apply downloadPDF_frame_aux. Qed.

(** X5: when no file is at the derived path, the GET succeeds with status
    200, a PDF Content-Type and a non-empty body read in full, and creating
    and writing the file raise no error, downloadPDF returns true, stores
    the body at the derived path and sends exactly one request. *)
Theorem downloadPDF_success (env : Env) (finalURL outputDir : string) (w : World)
  (resp : Response) :
  let filePath := Join outputDir (fst (urlToFilename finalURL (logs w))) in
  fileExists w filePath = false ->
  http_get env finalURL = inl resp -> StatusCode resp = 200%Z ->
  Contains (ContentType resp) "application/pdf" = true ->
  ReadErr resp = None -> Body resp <> [] ->
  create_err env filePath = None -> write_err env filePath = None ->
  fst (downloadPDF env finalURL outputDir w) = true /\
  files (snd (downloadPDF env finalURL outputDir w)) = <[filePath := Body resp]> (files w) /\
  requests (snd (downloadPDF env finalURL outputDir w)) = requests w ++ [finalURL].
Proof.
  drop_library. intros filePath Hex Hg Hs Hc Hr Hb Hce Hwe. subst filePath.
  unfold downloadPDF. destruct (urlToFilename finalURL (logs w)) as [fn lg]. simpl in *.
  change (fileExists (set_logs w lg) (Join outputDir fn)) with (fileExists w (Join outputDir fn)).
  rewrite Hex, Hg, Hs, Hc, Hr, Hce, Hwe. simpl.
  destruct (Body resp) eqn:HB; [contradiction|]. simpl.
  split; [reflexivity|]. split; [|reflexivity]. by rewrite insert_insert_eq.
Qed.

(** X6: when downloadPDF returns true, the GET answered with a response
    that passed every check, no file was at the derived path before, the
    file there now holds the response body, and one request was sent. *)
Theorem downloadPDF_true_stores_body (env : Env) (finalURL outputDir : string) (w : World) :
  fst (downloadPDF env finalURL outputDir w) = true ->
  let filePath := Join outputDir (fst (urlToFilename finalURL (logs w))) in
  exists resp, http_get env finalURL = inl resp /\ StatusCode resp = 200%Z /\
    Contains (ContentType resp) "application/pdf" = true /\ ReadErr resp = None /\
    Body resp <> [] /\ fileExists w filePath = false /\
    files (snd (downloadPDF env finalURL outputDir w)) !! filePath = Some (Body resp) /\
    requests (snd (downloadPDF env finalURL outputDir w)) = requests w ++ [finalURL].
Proof.
  drop_library. unfold downloadPDF. destruct (urlToFilename finalURL (logs w)) as [fn lg]. simpl.
  change (fileExists (set_logs w lg) (Join outputDir fn)) with (fileExists w (Join outputDir fn)).
  destruct (fileExists w (Join outputDir fn)) eqn:Hex; simpl; [discriminate|].
  destruct (http_get env finalURL) as [resp|err] eqn:Hg; simpl; [|discriminate].
  destruct (Z.eqb (StatusCode resp) 200) eqn:Hs; simpl; [|discriminate].
  destruct (Contains (ContentType resp) "application/pdf") eqn:Hc; simpl; [|discriminate].
  destruct (ReadErr resp) eqn:Hr; simpl; [discriminate|].
  destruct (Nat.eqb (length (Body resp)) 0) eqn:Hb; simpl; [discriminate|].
  destruct (create_err env (Join outputDir fn)); simpl; [discriminate|].
  destruct (write_err env (Join outputDir fn)); simpl; [discriminate|].
  intros _. exists resp. apply Z.eqb_eq in Hs.
  repeat split; auto.
  - intros HB. rewrite HB in Hb. discriminate.
  - by rewrite lookup_insert_eq.
Qed.

(** *** The download loops *)

Lemma downloadPDF_skip (env : Env) (finalURL outputDir : string) (w : World) :
  fileExists w (Join outputDir (fst (urlToFilename finalURL []))) = true ->
  fst (downloadPDF env finalURL outputDir w) = false /\
  files (snd (downloadPDF env finalURL outputDir w)) = files w /\
  requests (snd (downloadPDF env finalURL outputDir w)) = requests w.
Proof.
  drop_library. rewrite (urlToFilename_name_logs finalURL [] (logs w)).
  unfold downloadPDF. destruct (urlToFilename finalURL (logs w)) as [fn lg]; simpl. intros Hex.
  change (fileExists (set_logs w lg) (Join outputDir fn)) with (fileExists w (Join outputDir fn)).
  by rewrite Hex.
Qed.

Lemma fileExists_files (w w' : World) (p : string) :
  files w' = files w -> fileExists w' p = fileExists w p.
Proof. drop_library. unfold fileExists. by intros ->. Qed.

(** X7: when a file already exists at the derived path of every link, the
    loop of main.go sends no request, changes no file, and every call
    returns false. *)
Theorem download_loop_all_cached (env : Env) (outputFolder : string) (links : list string)
  (w : World) :
  (forall u, u ∈ links -> fileExists w (Join outputFolder (fst (urlToFilename u []))) = true) ->
  files (fst (download_loop env outputFolder links w)) = files w /\
  requests (fst (download_loop env outputFolder links w)) = requests w /\
  Forall (fun c => snd c = false) (snd (download_loop env outputFolder links w)).
Proof.
  drop_library. revert w; induction links as [|u rest IH]; intros w Hall; simpl; [auto|].
  pose proof (downloadPDF_skip env u outputFolder w (Hall u (list_elem_of_here u rest)))
    as (Hok & Hf & Hr).
  destruct (downloadPDF env u outputFolder w) as [ok w1]. simpl in Hok, Hf, Hr. subst ok.
  destruct (IH w1) as (Hf' & Hr' & Hc).
  { intros x Hx. rewrite (fileExists_files w w1 _ Hf). exact (Hall x (list_elem_of_further x u rest Hx)). }
  destruct (download_loop env outputFolder rest w1) as [w2 calls]. simpl in *.
  split; [congruence|]. split; [congruence|]. by constructor.
Qed.

Lemma download_loop_frame_aux (env : Env) (outputFolder : string) (links : list string) (w : World) :
  (exists sent, requests (fst (download_loop env outputFolder links w)) = requests w ++ sent /\
     sublist sent links) /\
  (forall p, (forall u, u ∈ links -> p <> Join outputFolder (fst (urlToFilename u []))) ->
     files (fst (download_loop env outputFolder links w)) !! p = files w !! p).
Proof.
  drop_library. revert w; induction links as [|u rest IH]; intros w; simpl.
  - split; [exists []; split; [by rewrite app_nil_r|constructor]|reflexivity].
  - pose proof (downloadPDF_frame_aux env u outputFolder w) as (Hf & Hr & _).
    rewrite <-(urlToFilename_name_logs u []) in Hf.
    destruct (downloadPDF env u outputFolder w) as [ok w1]. simpl in Hf, Hr.
    destruct (IH w1) as ((sent & Hs & Hsub) & Hf').
    destruct (download_loop env outputFolder rest w1) as [w2 calls]. simpl in *. split.
    + destruct Hr as [Hr|Hr].
      * exists sent. rewrite Hs, Hr. split; [reflexivity|]. by apply sublist_cons.
      * exists (u :: sent). rewrite Hs, Hr, <-app_assoc. split; [reflexivity|]. by apply sublist_skip.
    + intros p Hp. rewrite Hf'.
      * apply Hf, Hp, list_elem_of_here.
      * intros x Hx. apply Hp, list_elem_of_further, Hx.
Qed.

(** X8: the loop of main.go only sends requests to the links, in their
    order and at most once per link occurrence, and changes no file but
    those at the derived paths of the links. *)
Theorem download_loop_frame (env : Env) (outputFolder : string) (links : list string) (w : World) :
  (exists sent, requests (fst (download_loop env outputFolder links w)) = requests w ++ sent /\
     sublist sent links) /\
  (forall p, (forall u, u ∈ links -> p <> Join outputFolder (fst (urlToFilename u []))) ->
     files (fst (download_loop env outputFolder links w)) !! p = files w !! p).
Proof. drop_library. apply download_loop_frame_aux. Qed.

(** X9: the loop of the chromedp variants sends requests only to links
    that pass isUrlValid, in their order. *)
Theorem download_loop_valid_requests (env : Env) (outputFolder : string) (links : list string)
  (w : World) :
  exists sent, requests (fst (download_loop_valid env outputFolder links w)) = requests w ++ sent /\
    sublist sent (List.filter isUrlValid links).
Proof.
  drop_library. revert w; induction links as [|u rest IH]; intros w; simpl.
  - exists []. split; [by rewrite app_nil_r|constructor].
  - destruct (isUrlValid u) eqn:Hv; [|apply IH].
    pose proof (downloadPDF_frame_aux env u outputFolder w) as (_ & Hr & _).
    destruct (downloadPDF env u outputFolder w) as [ok w1]. simpl in Hr.
    destruct (IH w1) as (sent & Hs & Hsub).
    destruct (download_loop_valid env outputFolder rest w1) as [w2 calls]. simpl in *.
    destruct Hr as [Hr|Hr].
    + exists sent. rewrite Hs, Hr. split; [reflexivity|]. by apply sublist_cons.
    + exists (u :: sent). rewrite Hs, Hr, <-app_assoc. split; [reflexivity|]. by apply sublist_skip.
Qed.

(** *** Appending to and reading the cache file *)

Lemma appendByteToFile_world (fse : FsEnv) (filename : string) (data : list Byte.byte) (w : World) :
  requests (appendByteToFile fse filename data w) = requests w /\
  (forall p, p <> filename -> files (appendByteToFile fse filename data w) !! p = files w !! p) /\
  (files (appendByteToFile fse filename data w) !! filename = files w !! filename \/
   exists n, files (appendByteToFile fse filename data w) !! filename =
     Some (app (match files w !! filename with Some d => d | None => [] end) (firstn n data))).
Proof.
  drop_library. unfold appendByteToFile.
  destruct (open_err fse filename); [simpl; auto|].
  assert (Hw : forall n lg, let w' := {| files := <[filename := app
               (match files w !! filename with Some d => d | None => [] end) (firstn n data)]> (files w);
               logs := app (logs w) lg; requests := requests w |} in
          forall w'', files w'' = files w' -> requests w'' = requests w' ->
          requests w'' = requests w /\
          (forall p, p <> filename -> files w'' !! p = files w !! p) /\
          (files w'' !! filename = files w !! filename \/
           exists n', files w'' !! filename =
             Some (app (match files w !! filename with Some d => d | None => [] end) (firstn n' data)))).
  { intros n lg w' w'' Hf Hr. subst w'. rewrite Hf, Hr. simpl.
    split; [reflexivity|]. split.
    - intros p Hp. by rewrite lookup_insert_ne by congruence.
    - right. exists n. by rewrite lookup_insert_eq. }
  destruct (short_write fse filename) as [[n e]|].
  - apply (Hw n [e]); by destruct (close_err fse filename).
  - apply (Hw (length data) []); rewrite firstn_all; by destruct (close_err fse filename).
Qed.

Lemma readAFileAsString_world (fse : FsEnv) (path : string) (w : World) :
  files (snd (readAFileAsString fse path w)) = files w /\
  requests (snd (readAFileAsString fse path w)) = requests w.
Proof.
  drop_library. unfold readAFileAsString.
  destruct (files w !! path); [destruct (read_err fse path) as [[n e]|]|]; simpl; auto.
Qed.

Lemma appendByteToFile_ok (fse : FsEnv) (filename : string) (data : list Byte.byte) (w : World) :
  open_err fse filename = None -> short_write fse filename = None -> close_err fse filename = None ->
  files (appendByteToFile fse filename data w) !! filename =
    Some (app (match files w !! filename with Some d => d | None => [] end) data).
Proof.
  drop_library. intros Ho Hs Hc. unfold appendByteToFile. rewrite Ho, Hs, Hc. simpl.
  by rewrite lookup_insert_eq.
Qed.

Lemma readAFileAsString_ok (fse : FsEnv) (path : string) (w : World) (data : list Byte.byte) :
  files w !! path = Some data -> read_err fse path = None ->
  fst (readAFileAsString fse path w) = bytes_to_string data.
Proof. drop_library. intros Hf Hr. unfold readAFileAsString. by rewrite Hf, Hr. Qed.

(** X10: appendByteToFile never truncates: it changes no other file and
    the file it writes keeps its old content, followed by a prefix of the
    data (all of it, or what was written before a write error). *)
Theorem appendByteToFile_appends (fse : FsEnv) (filename : string) (data : list Byte.byte)
  (w : World) :
  requests (appendByteToFile fse filename data w) = requests w /\
  (forall p, p <> filename -> files (appendByteToFile fse filename data w) !! p = files w !! p) /\
  (files (appendByteToFile fse filename data w) !! filename = files w !! filename \/
   exists n, files (appendByteToFile fse filename data w) !! filename =
     Some (app (match files w !! filename with Some d => d | None => [] end) (firstn n data))).
Proof. drop_library. apply appendByteToFile_world. Qed.

(** X11: with no file-system error, reading the file back after
    appendByteToFile gives its old content followed by the data. *)
Theorem appendByteToFile_read_back (fse : FsEnv) (filename : string) (data : list Byte.byte)
  (w : World) :
  open_err fse filename = None -> short_write fse filename = None -> close_err fse filename = None ->
  read_err fse filename = None ->
  fst (readAFileAsString fse filename (appendByteToFile fse filename data w)) =
    bytes_to_string (app (match files w !! filename with Some d => d | None => [] end) data).
Proof.
  drop_library. intros Ho Hs Hc Hr. apply readAFileAsString_ok; [|exact Hr].
  by apply appendByteToFile_ok.
Qed.

(** *** main *)

Lemma prefix_app (sub q : string) : String.prefix sub (sub ++ q) = true.
Proof. drop_library. apply prefix_correct, substring_prefix. Qed.

Lemma Contains_mid (a sub q : string) : Contains (a ++ sub ++ q) sub = true.
Proof.
  drop_library. induction a as [|c a IH].
  - rewrite append_Empty. destruct sub as [|c s]; [rewrite append_Empty; by destruct q|].
    pose proof (prefix_app (String c s) q) as H. rewrite append_String in H |- *.
    cbn [Contains]. by rewrite H.
  - rewrite append_String. simpl. by rewrite IH, orb_true_r.
Qed.

Lemma remoteURL_not_extracted (htmlContent : string) : remoteURL ∉ extractPDFLinks htmlContent.
Proof.
  drop_library. intros H.
  destruct (extractPDFLinks_link_shape_aux _ _ H) as (scheme & body & q & Heq & _).
  pose proof (Contains_mid (scheme ++ body) ".pdf" q) as Hc.
  rewrite string_app_assoc, <-Heq in Hc. vm_compute in Hc. discriminate.
Qed.

Lemma createDirectory_world (fse : FsEnv) (path : string) (dirs : gset string) (w : World) :
  files (snd (createDirectory fse path dirs w)) = files w /\
  requests (snd (createDirectory fse path dirs w)) = requests w /\
  dirs ⊆ fst (createDirectory fse path dirs w) /\
  (mkdir_err fse path = None -> path ∈ fst (createDirectory fse path dirs w)).
Proof.
  drop_library. unfold createDirectory.
  destruct (mkdir_err fse path); simpl; (split; [reflexivity|]); (split; [reflexivity|]);
    (split; [set_solver|]); [discriminate|set_solver].
Qed.

Lemma main_dirs_step (fse : FsEnv) (dirs : gset string) (w : World) :
  let r := if directoryExists dirs outputFolder then (dirs, w) else createDirectory fse outputFolder dirs w in
  files (snd r) = files w /\ requests (snd r) = requests w /\ dirs ⊆ fst r /\
  (mkdir_err fse outputFolder = None -> outputFolder ∈ fst r).
Proof.
  drop_library. simpl. destruct (directoryExists dirs outputFolder) eqn:Hd.
  - simpl. split; [reflexivity|]. split; [reflexivity|]. split; [set_solver|].
    intros _. unfold directoryExists in Hd. by apply bool_decide_eq_true in Hd.
  - apply createDirectory_world.
Qed.

Lemma main_loop_requests (env : Env) (fse : FsEnv) (dirs : gset string) (w : World) (content : string) :
  let r := readAFileAsString fse localFileName w in
  fst r = content ->
  exists sent, requests (fst (download_loop env outputFolder (extractPDFLinks (fst r)) (snd r)))
    = requests w ++ sent /\ sublist sent (extractPDFLinks content).
Proof.
  drop_library. simpl. intros <-.
  destruct (readAFileAsString_world fse localFileName w) as [_ Hr].
  destruct (download_loop_frame_aux env outputFolder
              (extractPDFLinks (fst (readAFileAsString fse localFileName w)))
              (snd (readAFileAsString fse localFileName w))) as ((sent & Hs & Hsub) & _).
  exists sent. by rewrite Hs, Hr.
Qed.

(** X12: when gojo.html is already there and reads without error, main
    does not panic, does not fetch the page again, and requests only links
    extracted from the file, in their order, each at most once. *)
Theorem main_cached_page (env : Env) (fse : FsEnv) (dirs : gset string) (w : World)
  (data : list Byte.byte) :
  files w !! localFileName = Some data -> read_err fse localFileName = None ->
  exists dirs' w' sent, main env fse dirs w = Returned (dirs', w') /\
    requests w' = requests w ++ sent /\
    sublist sent (extractPDFLinks (bytes_to_string data)) /\ NoDup sent /\ remoteURL ∉ sent.
Proof.
  drop_library. intros Hf Hr. unfold main.
  pose proof (main_dirs_step fse dirs w) as (Hdf & Hdr & _). simpl in Hdf, Hdr.
  destruct (if directoryExists dirs outputFolder then (dirs, w)
            else createDirectory fse outputFolder dirs w) as [dirs1 w1]. simpl in Hdf, Hdr.
  assert (Hf1 : files w1 !! localFileName = Some data) by (by rewrite Hdf).
  assert (Hex : fileExists w1 localFileName = true) by (unfold fileExists; by rewrite Hf1).
  rewrite Hex.
  pose proof (main_loop_requests env fse dirs1 w1 (bytes_to_string data)) as Hl. simpl in Hl.
  destruct (Hl (readAFileAsString_ok fse localFileName w1 data Hf1 Hr)) as (sent & Hs & Hsub).
  destruct (readAFileAsString fse localFileName w1) as [content w2]. simpl in Hs.
  eexists _, _, sent. split; [reflexivity|]. rewrite Hs, Hdr. split; [reflexivity|].
  split; [exact Hsub|]. split; [exact (sublist_NoDup _ _ (extractPDFLinks_nodup _) Hsub)|].
  intros Hin. apply (remoteURL_not_extracted (bytes_to_string data)).
  by eapply elem_of_sublist.
Qed.

(** X13: when gojo.html is absent and the GET of the page fails at the
    transport level, main panics (getDataFromURL dereferences the nil
    response). *)
Theorem main_fetch_error_panics (env : Env) (fse : FsEnv) (dirs : gset string) (w : World)
  (err : string) :
  fileExists w localFileName = false -> http_get env remoteURL = inr err ->
  exists msg, main env fse dirs w = Panicked msg.
Proof.
  drop_library. intros Hex Hg. unfold main.
  pose proof (main_dirs_step fse dirs w) as (Hdf & _). simpl in Hdf.
  destruct (if directoryExists dirs outputFolder then (dirs, w)
            else createDirectory fse outputFolder dirs w) as [dirs1 w1]. simpl in Hdf.
  rewrite (fileExists_files w w1 _ Hdf), Hex. unfold getDataFromURL. rewrite Hg.
  by eexists.
Qed.


(** X15: main only adds directories, and after it returns the output
    folder is among them unless creating it failed. *)
Theorem main_output_folder (env : Env) (fse : FsEnv) (dirs : gset string) (w : World)
  (dirs' : gset string) (w' : World) :
  main env fse dirs w = Returned (dirs', w') ->
  dirs ⊆ dirs' /\ (mkdir_err fse outputFolder = None -> outputFolder ∈ dirs').
Proof.
  drop_library. intros Hm. unfold main in Hm.
  pose proof (main_dirs_step fse dirs w) as (_ & _ & Hsub & Hin). simpl in Hsub, Hin.
  destruct (if directoryExists dirs outputFolder then (dirs, w)
            else createDirectory fse outputFolder dirs w) as [dirs1 w1]. simpl in Hsub, Hin.
  destruct (if fileExists w1 localFileName then Returned w1 else _) as [w2|m]; [|discriminate].
  destruct (readAFileAsString fse localFileName w2) as [content w3].
  injection Hm as <- _. auto.
Qed.

(** *** getFileExtension (filepath.Ext) *)

Lemma has_char_String (c d : ascii) (s : string) :
  has_char c (String d s) = Ascii.eqb c d || has_char c s.
Proof. drop_library. reflexivity. Qed.

Lemma has_char_app (c : ascii) (a b : string) : has_char c (a ++ b) = has_char c a || has_char c b.
Proof. drop_library. unfold has_char. by rewrite list_ascii_of_string_app, existsb_app. Qed.

Lemma ext_scan_none (s : string) :
  ext_scan s = None <-> has_char "." s = false /\ has_char "/" s = false.
Proof.
  drop_library. induction s as [|c s IH]; [simpl; tauto|].
  rewrite !has_char_String, !orb_false_iff, (Ascii.eqb_sym "." c), (Ascii.eqb_sym "/" c).
  simpl. destruct (ext_scan s) as [e|] eqn:Hs.
  - split; [discriminate|]. intros [[_ H1] [_ H2]]. exact (proj2 IH (conj H1 H2)).
  - destruct (proj1 IH eq_refl) as [H1 H2]. rewrite H1, H2.
    destruct (Ascii.eqb c "."), (Ascii.eqb c "/"); simpl; intuition congruence.
Qed.

Lemma ext_scan_some (s e : string) :
  ext_scan s = Some e ->
  (exists pre, s = (pre ++ e)%string) /\
  (e = EmptyString \/ exists e', e = String "." e' /\ has_char "." e' = false /\ has_char "/" e' = false).
Proof.
  drop_library. revert e; induction s as [|c s IH]; intros e H; simpl in H; [discriminate|].
  destruct (ext_scan s) as [e0|] eqn:Hs.
  - injection H as <-. destruct (IH e0 eq_refl) as ([pre ->] & Hsh).
    split; [by exists (String c pre)|exact Hsh].
  - apply ext_scan_none in Hs as [Hd Hsl].
    destruct (Ascii.eqb c ".") eqn:Hc.
    + injection H as <-. apply Ascii.eqb_eq in Hc. subst c.
      split; [by exists EmptyString|]. right. by exists s.
    + destruct (Ascii.eqb c "/") eqn:Hc'; [|discriminate]. injection H as <-.
      split; [exists (String c s); by rewrite string_app_nil_r|]. by left.
Qed.

Lemma ext_scan_app (pre s e : string) : ext_scan s = Some e -> ext_scan (pre ++ s) = Some e.
Proof.
  drop_library. intros H. induction pre as [|c pre IH]; [exact H|].
  rewrite append_String. simpl. by rewrite IH.
Qed.

(** X16: getFileExtension returns a suffix of the path that is empty or
    is a dot followed by characters with no dot and no slash; and any such
    suffix after a dot is what it returns. *)
Theorem getFileExtension_last_dot (path pre e : string) :
  (exists p0, path = (p0 ++ getFileExtension path)%string) /\
  (getFileExtension path = EmptyString \/
   exists e', getFileExtension path = String "." e' /\
     has_char "." e' = false /\ has_char "/" e' = false) /\
  (has_char "." e = false -> has_char "/" e = false ->
   getFileExtension (pre ++ String "." e) = String "." e).
Proof.
  drop_library. split; [|split].
  - unfold getFileExtension. destruct (ext_scan path) as [x|] eqn:H.
    + exact (proj1 (ext_scan_some _ _ H)).
    + exists path. by rewrite string_app_nil_r.
  - unfold getFileExtension. destruct (ext_scan path) as [x|] eqn:H; [|by left].
    exact (proj2 (ext_scan_some _ _ H)).
  - intros Hd Hs. unfold getFileExtension. rewrite (ext_scan_app pre (String "." e) (String "." e)); [done|].
    simpl. assert (ext_scan e = None) as -> by (by apply ext_scan_none). reflexivity.
Qed.

(** *** getFileNameOnly (path.Base) *)

Definition no_slash (c : ascii) : bool := negb (Ascii.eqb c "/").

Lemma forallb_rev {A} (f : A -> bool) (l : list A) : forallb f (rev l) = forallb f l.
Proof.
  induction l as [|x l IH]; [reflexivity|]. simpl. rewrite forallb_app, IH. simpl.
  by rewrite andb_true_r, andb_comm.
Qed.

Lemma has_char_slash_forallb (s : string) :
  has_char "/" s = false <-> forallb no_slash (list_ascii_of_string s) = true.
Proof.
  drop_library. unfold has_char, no_slash. induction (list_ascii_of_string s) as [|c l IH]; [simpl; tauto|].
  simpl. rewrite Ascii.eqb_sym, orb_false_iff, andb_true_iff, negb_true_iff. tauto.
Qed.

Lemma take_until_slash_no_slash (l : list ascii) : forallb no_slash (take_until_slash l) = true.
Proof.
  drop_library. induction l as [|c l IH]; [reflexivity|]. simpl.
  destruct (Ascii.eqb c "/") eqn:Hc; [reflexivity|]. simpl. rewrite IH. unfold no_slash. by rewrite Hc.
Qed.

Lemma take_until_slash_all (l r : list ascii) :
  forallb no_slash l = true -> take_until_slash (l ++ r) = l ++ take_until_slash r.
Proof.
  drop_library. induction l as [|c l IH]; [reflexivity|]. simpl. unfold no_slash at 1.
  rewrite andb_true_iff, negb_true_iff. intros [Hc Hl]. by rewrite Hc, IH.
Qed.

Lemma drop_slashes_nonslash (c : ascii) (l : list ascii) :
  no_slash c = true -> drop_slashes (c :: l) = c :: l.
Proof. drop_library. unfold no_slash. rewrite negb_true_iff. intros Hc. simpl. by rewrite Hc. Qed.

Lemma Base_rev_name (l r : list ascii) :
  l <> [] -> forallb no_slash l = true ->
  take_until_slash (drop_slashes (rev l ++ r)) = rev l ++ take_until_slash r.
Proof.
  drop_library. intros Hne Hl. rewrite <-forallb_rev in Hl.
  destruct (rev l) as [|c l'] eqn:Hr; [by destruct l; [|simpl in Hr; destruct (rev l); discriminate]|].
  simpl in Hl. apply andb_true_iff in Hl as [Hc Hl'].
  rewrite <-app_comm_cons, drop_slashes_nonslash by exact Hc.
  apply (take_until_slash_all (c :: l')). simpl. by rewrite Hc, Hl'.
Qed.

Lemma Base_gen (pre n suffix : string) :
  n <> EmptyString -> has_char "/" n = false ->
  (suffix = EmptyString \/ suffix = "/") ->
  take_until_slash (rev (list_ascii_of_string pre)) = [] ->
  Base (pre ++ n ++ suffix) = n.
Proof.
  drop_library. intros Hne Hn Hsuf Hpre. apply has_char_slash_forallb in Hn.
  unfold Base.
  destruct (String.eqb (pre ++ n ++ suffix) EmptyString) eqn:E.
  { apply String.eqb_eq, (f_equal String.length) in E. rewrite !string_length_app in E.
    destruct n; [contradiction|simpl in E; lia]. }
  rewrite !list_ascii_of_string_app, !rev_app_distr, <-app_assoc.
  assert (Hd : forall x, drop_slashes (rev (list_ascii_of_string suffix) ++ x) = drop_slashes x)
    by (destruct Hsuf as [-> | ->]; reflexivity).
  rewrite Hd.
  assert (Hl : list_ascii_of_string n <> []) by (destruct n; [contradiction|discriminate]).
  rewrite Base_rev_name, Hpre, app_nil_r by assumption.
  destruct (rev (list_ascii_of_string n)) as [|c l] eqn:Hr.
  - exfalso. apply Hl. apply (f_equal (@rev ascii)) in Hr. by rewrite rev_involutive in Hr.
  - rewrite <-Hr, rev_involutive. apply string_of_list_ascii_of_string.
Qed.

Lemma Base_single (n : string) : n <> EmptyString -> has_char "/" n = false -> Base n = n.
Proof.
  drop_library. intros Hne Hn. pose proof (Base_gen EmptyString n EmptyString Hne Hn (or_introl eq_refl) eq_refl) as H.
  by rewrite append_Empty, string_app_nil_r in H.
Qed.

(** X17: getFileNameOnly returns the last element of a slash-separated
    path, ignoring one trailing slash. *)
Theorem getFileNameOnly_last_element (d n : string) :
  n <> EmptyString -> has_char "/" n = false ->
  getFileNameOnly n = n /\ getFileNameOnly (d ++ "/" ++ n) = n /\
  getFileNameOnly (d ++ "/" ++ n ++ "/") = n.
Proof.
  drop_library. intros Hne Hn. unfold getFileNameOnly.
  assert (Hpre : take_until_slash (rev (list_ascii_of_string (d ++ "/"))) = []).
  { rewrite list_ascii_of_string_app, rev_app_distr. reflexivity. }
  split; [by apply Base_single|]. split.
  - pose proof (Base_gen (d ++ "/") n EmptyString Hne Hn (or_introl eq_refl) Hpre) as H.
    by rewrite string_app_nil_r, string_app_assoc in H.
  - pose proof (Base_gen (d ++ "/") n "/" Hne Hn (or_intror eq_refl) Hpre) as H.
    by rewrite string_app_assoc in H.
Qed.

(** X18: getFileNameOnly never returns the empty string; it returns ".",
    "/" or a name with no slash, and applying it twice changes nothing. *)
Theorem getFileNameOnly_result (content : string) :
  getFileNameOnly content <> EmptyString /\
  (getFileNameOnly content = "." \/ getFileNameOnly content = "/" \/
   has_char "/" (getFileNameOnly content) = false) /\
  getFileNameOnly (getFileNameOnly content) = getFileNameOnly content.
Proof.
  drop_library. unfold getFileNameOnly.
  assert (H : Base content = "." \/ Base content = "/" \/
              (Base content <> EmptyString /\ has_char "/" (Base content) = false)).
  { unfold Base. destruct (String.eqb content EmptyString); [by left|].
    destruct (take_until_slash (drop_slashes (rev (list_ascii_of_string content)))) as [|c r] eqn:Ht;
      [by right; left|].
    right; right. split.
    - simpl. destruct (rev r); simpl; discriminate.
    - apply has_char_slash_forallb. rewrite list_ascii_of_string_of_list_ascii, forallb_rev, <-Ht.
      apply take_until_slash_no_slash. }
  destruct H as [-> | [-> | [Hne Hn]]].
  - split; [discriminate|]. split; [by left|reflexivity].
  - split; [discriminate|]. split; [by right; left|reflexivity].
  - split; [exact Hne|]. split; [by right; right|]. by apply Base_single.
Qed.

End Scraper.

Open Scope list_scope.

(* ------------------------------------------------------------------ *)
(** * Concrete instances, witnesses and counterexamples *)

(** The ASCII lower-casing has the three properties [C9] uses. *)
Lemma lower_char_idem (c : ascii) : lower_char (lower_char c) = lower_char c.
Proof.
  destruct c as [b0 b1 b2 b3 b4 b5 b6 b7].
  destruct b0, b1, b2, b3, b4, b5, b6, b7; vm_compute; reflexivity.
Qed.

Lemma lower_char_blocked (c : ascii) : blocked c = false -> blocked (lower_char c) = false.
Proof.
  destruct c as [b0 b1 b2 b3 b4 b5 b6 b7].
  destruct b0, b1, b2, b3, b4, b5, b6, b7; vm_compute; congruence.
Qed.

Lemma map_chars_app (f : ascii -> ascii) (a b : string) :
  map_chars f (a ++ b) = (map_chars f a ++ map_chars f b)%string.
Proof. induction a as [|c a IH]; [reflexivity|]. rewrite append_String. simpl. by rewrite IH. Qed.

Lemma ascii_ToLower_idem (s : string) : ascii_ToLower (ascii_ToLower s) = ascii_ToLower s.
Proof.
  unfold ascii_ToLower. rewrite map_chars_map_chars. apply map_chars_ext, lower_char_idem.
Qed.

Lemma ascii_ToLower_pdf (s : string) :
  ascii_ToLower (s ++ ".pdf")%string = (ascii_ToLower s ++ ".pdf")%string.
Proof. unfold ascii_ToLower. rewrite map_chars_app. reflexivity. Qed.

Lemma ascii_ToLower_blocked (s : string) :
  has_blocked s = false -> has_blocked (ascii_ToLower s) = false.
Proof.
  unfold has_blocked, ascii_ToLower. induction s as [|c s IH]; [reflexivity|]. simpl.
  intros H. apply orb_false_iff in H as [H1 H2].
  rewrite (lower_char_blocked c H1), (IH H2). reflexivity.
Qed.

(** Witness of [C1]: a 404 answer for the example URL. *)
Lemma downloadPDF_no_file_unless_valid_witness :
  http_get example_env example_raw = inl resp404 /\
  fst (downloadPDF example_parse ascii_ToLower example_join example_env example_raw "PDFs/"
         empty_world) = false /\
  files (snd (downloadPDF example_parse ascii_ToLower example_join example_env example_raw
                "PDFs/" empty_world)) = files empty_world.
Proof.
  split; [reflexivity|].
  apply (proj1 (downloadPDF_no_file_unless_valid example_parse ascii_ToLower example_join
                  example_env example_raw "PDFs/" empty_world) resp404 eq_refl).
  left. discriminate.
Defined.

(** Witness of [C4]: host, path and query of the example URL. *)
Lemma urlToFilename_sanitizing_policy_witness :
  example_parse example_raw = inl example_url /\
  fst (urlToFilename example_parse ascii_ToLower example_raw [])
  = "x.test__docs_a_b.pdf_v=1_lang=en.pdf".
Proof.
  split; [reflexivity|].
  rewrite (urlToFilename_sanitizing_policy example_parse ascii_ToLower example_raw []
             example_url eq_refl).
  vm_compute. reflexivity.
Defined.

(** Witness of [C5] amended: the 404 answer. *)
Lemma getDataFromURL_response_body_witness :
  (fun _ : string => inl resp404 : Response + string) "https://www.gojo.com/en/SDS" = inl resp404 /\
  getDataFromURL (fun _ => inl resp404) "https://www.gojo.com/en/SDS" []
  = (Returned (Body resp404),
     [] ++ ["Scraping " ++ "https://www.gojo.com/en/SDS"]%string
        ++ opt_log (ReadErr resp404) ++ opt_log (CloseErr resp404)).
Proof.
  split; [reflexivity|].
  apply (getDataFromURL_response_body (fun _ => inl resp404) "https://www.gojo.com/en/SDS" []
           resp404). reflexivity.
Defined.

(** [C7] counterexample: in the chromedp variants, a link the extractor
    returns but that holds a control byte is never passed to downloadPDF,
    even when every other check of url.ParseRequestURI would pass. *)
Lemma download_loop_valid_skips_ctl_link :
  extractPDFLinks ctl_link = [ctl_link] /\
  snd (download_loop_valid example_parse ascii_ToLower example_join (fun _ => true) example_env
         "PDFs/" (removeDuplicatesFromSlice (extractPDFLinks ctl_link)) empty_world) = [].
Proof. split; vm_compute; reflexivity. Qed.

(** Witness of [C8]: a URL the example parser rejects. *)
Lemma urlToFilename_parse_error_witness :
  example_parse "::bad" = inr "parse ::bad: invalid URL" /\
  urlToFilename example_parse ascii_ToLower "::bad" [] = (EmptyString, [] ++ ["parse ::bad: invalid URL"]).
Proof.
  split; [reflexivity|].
  apply urlToFilename_parse_error. reflexivity.
Defined.

(** Witness of [C9]: the example URL with the ASCII lower-casing. *)
Lemma urlToFilename_name_invariants_witness :
  example_parse example_raw = inl example_url /\
  (let name := fst (urlToFilename example_parse ascii_ToLower example_raw []) in
   HasSuffix name ".pdf" = true /\ ascii_ToLower name = name /\ has_blocked name = false).
Proof.
  split; [reflexivity|].
  exact (urlToFilename_name_invariants example_parse ascii_ToLower example_raw [] example_url
           ascii_ToLower_idem ascii_ToLower_pdf ascii_ToLower_blocked eq_refl).
Defined.

(** Witness of [C10]: the example file is already in the output folder. *)
Lemma downloadPDF_existing_file_witness :
  fileExists existing_world
    (example_join "PDFs/" (fst (urlToFilename example_parse ascii_ToLower example_raw
                                  (logs existing_world)))) = true /\
  fst (downloadPDF example_parse ascii_ToLower example_join example_env example_raw "PDFs/"
         existing_world) = false /\
  files (snd (downloadPDF example_parse ascii_ToLower example_join example_env example_raw
                "PDFs/" existing_world)) = files existing_world /\
  requests (snd (downloadPDF example_parse ascii_ToLower example_join example_env example_raw
                   "PDFs/" existing_world)) = requests existing_world.
Proof.
  split; [vm_compute; reflexivity|].
  apply downloadPDF_existing_file. vm_compute. reflexivity.
Defined.

(** Tests of the path.Base model. *)
Example Base_tests :
  Base "a/b/" = "b" /\ Base "///" = "/" /\ Base "" = "." /\ Base "x.pdf" = "x.pdf" /\
  Base "PDFs/a.pdf" = "a.pdf".
Proof. vm_compute. repeat split. Qed.

(** Witness of X3: the link of the extraction example. *)
Lemma extractPDFLinks_link_shape_witness :
  "https://x.test/a.pdf" ∈ extractPDFLinks example_text /\
  exists scheme body q, "https://x.test/a.pdf" = (scheme ++ body ++ ".pdf" ++ q)%string /\
    (scheme = "http://" \/ scheme = "https://") /\ body <> EmptyString /\
    (q = EmptyString \/ exists q', q = String "?" q') /\ all_class "https://x.test/a.pdf" = true.
Proof.
  assert (H : "https://x.test/a.pdf" ∈ extractPDFLinks example_text)
    by (apply list_elem_of_In; vm_compute; left; reflexivity).
  split; [exact H|]. exact (extractPDFLinks_link_shape _ _ H).
Defined.

(** Witness of X5: the example PDF downloaded into an empty world. *)
Lemma downloadPDF_success_witness :
  fst (downloadPDF example_parse ascii_ToLower example_join site_env example_raw "PDFs/" empty_world)
    = true /\
  files (snd (downloadPDF example_parse ascii_ToLower example_join site_env example_raw "PDFs/"
                empty_world)) = <[example_path := Body resp_pdf]> (files empty_world) /\
  requests (snd (downloadPDF example_parse ascii_ToLower example_join site_env example_raw "PDFs/"
                   empty_world)) = requests empty_world ++ [example_raw].
Proof.
  apply (downloadPDF_success example_parse ascii_ToLower example_join site_env example_raw "PDFs/"
           empty_world resp_pdf);
    try (vm_compute; reflexivity). discriminate.
Defined.

(** Witness of X6: the same download returns true. *)
Lemma downloadPDF_true_stores_body_witness :
  fst (downloadPDF example_parse ascii_ToLower example_join site_env example_raw "PDFs/" empty_world)
    = true /\
  exists resp, http_get site_env example_raw = inl resp /\
    files (snd (downloadPDF example_parse ascii_ToLower example_join site_env example_raw "PDFs/"
                  empty_world)) !! example_path = Some (Body resp).
Proof.
  assert (H : fst (downloadPDF example_parse ascii_ToLower example_join site_env example_raw "PDFs/"
                     empty_world) = true) by (vm_compute; reflexivity).
  split; [exact H|].
  destruct (downloadPDF_true_stores_body example_parse ascii_ToLower example_join site_env
              example_raw "PDFs/" empty_world H) as (resp & Hg & _ & _ & _ & _ & _ & Hf & _).
  exists resp. split; [exact Hg|exact Hf].
Defined.

(** Witness of X7: the example link with its file already saved. *)
Lemma download_loop_all_cached_witness :
  (forall u, u ∈ [example_raw] ->
     fileExists existing_world (example_join "PDFs/" (fst (urlToFilename example_parse ascii_ToLower u [])))
     = true) /\
  files (fst (download_loop example_parse ascii_ToLower example_join site_env "PDFs/" [example_raw]
                existing_world)) = files existing_world /\
  requests (fst (download_loop example_parse ascii_ToLower example_join site_env "PDFs/" [example_raw]
                   existing_world)) = requests existing_world /\
  Forall (fun c => snd c = false)
    (snd (download_loop example_parse ascii_ToLower example_join site_env "PDFs/" [example_raw]
            existing_world)).
Proof.
  assert (H : forall u, u ∈ [example_raw] ->
     fileExists existing_world (example_join "PDFs/" (fst (urlToFilename example_parse ascii_ToLower u [])))
     = true).
  { intros u Hu. apply list_elem_of_singleton in Hu. subst u. vm_compute. reflexivity. }
  split; [exact H|]. exact (download_loop_all_cached _ _ _ _ _ _ _ H).
Defined.

(** Witness of X11: appending the PDF bytes to the cached page. *)
Lemma appendByteToFile_read_back_witness :
  fst (readAFileAsString fs_ok localFileName
         (appendByteToFile fs_ok localFileName (Body resp_pdf) cached_world)) =
    bytes_to_string (app (string_to_bytes page_html) (Body resp_pdf)).
Proof.
  exact (appendByteToFile_read_back fs_ok localFileName (Body resp_pdf) cached_world
           eq_refl eq_refl eq_refl eq_refl).
Defined.

(** Witness of X12: the listing page is cached. *)
Lemma main_cached_page_witness :
  exists dirs' w' sent,
    main example_parse ascii_ToLower example_join site_env fs_ok ∅ cached_world = Returned (dirs', w') /\
    requests w' = requests cached_world ++ sent /\
    sublist sent (extractPDFLinks (bytes_to_string (string_to_bytes page_html))) /\ NoDup sent /\
    remoteURL ∉ sent.
Proof.
  apply (main_cached_page example_parse ascii_ToLower example_join site_env fs_ok ∅ cached_world
           (string_to_bytes page_html)); vm_compute; reflexivity.
Defined.

(** Witness of X13: no network and no cached page. *)
Lemma main_fetch_error_panics_witness :
  exists msg, main example_parse ascii_ToLower example_join offline_env fs_ok ∅ empty_world = Panicked msg.
Proof.
  apply (main_fetch_error_panics example_parse ascii_ToLower example_join offline_env fs_ok ∅ empty_world
           "Get https://www.gojo.com/en/SDS: dial tcp: connection refused"); vm_compute; reflexivity.
Defined.


(** Witness of X15: a run of main from an empty world. *)
Lemma main_output_folder_witness :
  exists dirs' w',
    main example_parse ascii_ToLower example_join site_env fs_ok ∅ empty_world = Returned (dirs', w') /\
    outputFolder ∈ dirs'.
Proof.
  destruct (main example_parse ascii_ToLower example_join site_env fs_ok ∅ empty_world)
    as [[dirs' w']|m] eqn:Hm; [|vm_compute in Hm; discriminate].
  exists dirs', w'. split; [reflexivity|].
  exact (proj2 (main_output_folder example_parse ascii_ToLower example_join site_env fs_ok ∅ empty_world
                  dirs' w' Hm) eq_refl).
Defined.

(** Witness of X17: a file name under a directory. *)
Lemma getFileNameOnly_last_element_witness :
  getFileNameOnly "a.pdf" = "a.pdf" /\ getFileNameOnly ("PDFs" ++ "/" ++ "a.pdf") = "a.pdf" /\
  getFileNameOnly ("PDFs" ++ "/" ++ "a.pdf" ++ "/") = "a.pdf".
Proof. apply getFileNameOnly_last_element; [discriminate|reflexivity]. Defined.
